(** * HistoricalWeather: a shallow embedding of [main.py]

    The program looks a US zip code up, fetches the daily maximum
    temperatures of that place from a weather archive and lets the user
    inspect them from a text menu.  This file embeds the class
    [HistoricalTemps] and the interactive functions around it, and proves
    the properties the specification states about them.

    Python values are embedded as the inductive type [pyval]; a Python
    [float] is an IEEE-754 binary64 number ([spec_float] with precision 53
    and maximal exponent 1024), a Python [int] is a [Z].  Code that can
    raise returns a [result]; code that reads input, prints, talks to the
    network or assigns to an attribute runs in the state-and-exception
    monad [M].  The outside services (geocoder, HTTP client, JSON parser,
    and the parsing and formatting builtins) are the members of the class
    [Outside], of which the program is given an instance. *)

From Stdlib Require Import ZArith List String Ascii Bool Lia Permutation Sorted.
From Stdlib Require Import Floats.SpecFloat.
Import ListNotations.

Set Warnings "-register-all".
Local Open Scope string_scope.
Local Open Scope Z_scope.

(** ** Exceptions

    Only the classes the program can meet are listed, with the parent each
    has in Python.  All of them derive from [Exception]: interrupts of the
    interpreter ([KeyboardInterrupt], [SystemExit]) are not modelled. *)

Inductive exn_class : Type :=
  | Exception
  | LookupError
  | KeyError
  | IndexError
  | ArithmeticError
  | ZeroDivisionError
  | OverflowError
  | TypeError
  | ValueError
  | JSONDecodeError
  | EOFError
  | OSError
  | RequestException.

Definition exn_class_eqb (c d : exn_class) : bool :=
  match c, d with
  | Exception, Exception | LookupError, LookupError | KeyError, KeyError
  | IndexError, IndexError | ArithmeticError, ArithmeticError
  | ZeroDivisionError, ZeroDivisionError | OverflowError, OverflowError
  | TypeError, TypeError | ValueError, ValueError
  | JSONDecodeError, JSONDecodeError | EOFError, EOFError
  | OSError, OSError | RequestException, RequestException => true
  | _, _ => false
  end.

(** The direct base class. *)
Definition parent (c : exn_class) : option exn_class :=
  match c with
  | Exception => None
  | LookupError | ArithmeticError | TypeError | ValueError
  | EOFError | OSError => Some Exception
  | KeyError | IndexError => Some LookupError
  | ZeroDivisionError | OverflowError => Some ArithmeticError
  | JSONDecodeError => Some ValueError
  | RequestException => Some OSError
  end.

Fixpoint issubclass_upto (depth : nat) (c d : exn_class) : bool :=
  exn_class_eqb c d ||
  match depth, parent c with
  | S depth', Some p => issubclass_upto depth' p d
  | _, _ => false
  end.

(** The hierarchy above is two levels deep below [Exception]. *)
Definition issubclass : exn_class -> exn_class -> bool := issubclass_upto 3.

(** An exception object: its class, the text [str(e)] gives, and the
    exception that was being handled when it was raised ([__context__]). *)
Inductive exn : Type :=
  | Exn (cls : exn_class) (msg : string) (context : option exn).

Definition exn_cls (e : exn) : exn_class := let 'Exn c _ _ := e in c.
Definition str_exn (e : exn) : string := let 'Exn _ m _ := e in m.
Definition exn_context (e : exn) : option exn := let 'Exn _ _ c := e in c.

Definition isinstance (e : exn) (c : exn_class) : bool := issubclass (exn_cls e) c.

(** ** Results of code that can raise *)

Inductive result (A : Type) : Type :=
  | Ok (a : A)
  | Raise (e : exn).
Arguments Ok {A} a.
Arguments Raise {A} e.

Definition rbind {A B} (r : result A) (k : A -> result B) : result B :=
  match r with
  | Ok a => k a
  | Raise e => Raise e
  end.

Declare Scope result_scope.
Delimit Scope result_scope with result.
Notation "x <- c1 ;; c2" := (rbind c1 (fun x => c2))
  (at level 100, c1 at next level, right associativity) : result_scope.

(** ** Python values *)

Definition float : Type := spec_float.
Definition prec : Z := 53.
Definition emax : Z := 1024.

Inductive pyval : Type :=
  | PNone
  | PBool (b : bool)
  | PInt (z : Z)
  | PFloat (f : float)
  | PStr (s : string)
  | PList (l : list pyval)
  | PDict (d : list (string * pyval)).

Definition type_name (v : pyval) : string :=
  match v with
  | PNone => "NoneType"
  | PBool _ => "bool"
  | PInt _ => "int"
  | PFloat _ => "float"
  | PStr _ => "str"
  | PList _ => "list"
  | PDict _ => "dict"
  end.

(** ** Numbers

    [bool] is a subclass of [int]; arithmetic and comparison between an
    [int] and a [float] follow Python: [+] and [/] convert the [int] to a
    [float] first, comparison is exact. *)

Inductive number : Type :=
  | NInt (z : Z)
  | NFloat (f : float).

Definition to_number (v : pyval) : option number :=
  match v with
  | PBool b => Some (NInt (Z.b2z b))
  | PInt z => Some (NInt z)
  | PFloat f => Some (NFloat f)
  | _ => None
  end.

Definition of_number (n : number) : pyval :=
  match n with
  | NInt z => PInt z
  | NFloat f => PFloat f
  end.

Definition fadd : float -> float -> float := SFadd prec emax.
Definition fdiv : float -> float -> float := SFdiv prec emax.
Definition fcompare : float -> float -> option comparison := SFcompare.

(** [float(z)]: the nearest binary64 number, ties to even; an [int] beyond
    the range of a [float] raises. *)
Definition float_of_int (z : Z) : result float :=
  match binary_normalize prec emax z 0 false with
  | S754_infinity _ => Raise (Exn OverflowError "int too large to convert to float" None)
  | f => Ok f
  end.

(** Exact comparison of an [int] with a [float]. *)
Definition Zcompare_float (z : Z) (f : float) : option comparison :=
  match f with
  | S754_nan => None
  | S754_infinity s => Some (if s then Gt else Lt)
  | S754_zero _ => Some (Z.compare z 0)
  | S754_finite s m e =>
      let v := cond_Zopp s (Zpos m) in
      Some (if 0 <=? e then Z.compare z (v * 2 ^ e) else Z.compare (z * 2 ^ (- e)) v)
  end.

Definition num_compare (a b : number) : option comparison :=
  match a, b with
  | NInt x, NInt y => Some (Z.compare x y)
  | NFloat x, NFloat y => fcompare x y
  | NInt x, NFloat y => Zcompare_float x y
  | NFloat x, NInt y => option_map CompOpp (Zcompare_float y x)
  end.

(** [a < b] and [a > b] on numbers; both are false when a NaN is involved. *)
Definition num_lt (a b : number) : bool :=
  match num_compare a b with Some Lt => true | _ => false end.
Definition num_gt (a b : number) : bool :=
  match num_compare a b with Some Gt => true | _ => false end.

(** [a + b] on numbers. *)
Definition num_add (a b : number) : result number :=
  match a, b with
  | NInt x, NInt y => Ok (NInt (x + y))
  | NFloat x, NFloat y => Ok (NFloat (fadd x y))
  | NInt x, NFloat y => (x' <- float_of_int x ;; Ok (NFloat (fadd x' y)))%result
  | NFloat x, NInt y => (y' <- float_of_int y ;; Ok (NFloat (fadd x y')))%result
  end.

(** [a / b] for two [int]s: the exact quotient, rounded once. *)
Definition int_truediv (a b : Z) : result float :=
  if b =? 0 then Raise (Exn ZeroDivisionError "division by zero" None)
  else
    let q :=
      match a with
      | Z0 => S754_zero (b <? 0)
      | _ => fdiv (S754_finite (a <? 0) (Z.to_pos (Z.abs a)) 0)
                  (S754_finite (b <? 0) (Z.to_pos (Z.abs b)) 0)
      end in
    match q with
    | S754_infinity _ =>
        Raise (Exn OverflowError "integer division result too large for a float" None)
    | _ => Ok q
    end.

Definition float_is_zero (f : float) : bool :=
  match f with S754_zero _ => true | _ => false end.

(** [a / b] where [b] is an [int] (the length of a list). *)
Definition num_truediv_int (a : number) (b : Z) : result float :=
  match a with
  | NInt x => int_truediv x b
  | NFloat x =>
      (b' <- float_of_int b ;;
       if float_is_zero b'
       then Raise (Exn ZeroDivisionError "float division by zero" None)
       else Ok (fdiv x b'))%result
  end.

(** The [float] nearest to [z], and the one nearest to 0.1. *)
Definition float_of_Z (z : Z) : float := binary_normalize prec emax z 0 false.
Definition f0_1 : float := Eval vm_compute in fdiv (float_of_Z 1) (float_of_Z 10).

Definition float_is_nan (f : float) : bool :=
  match f with S754_nan => true | _ => false end.

(** [math.isnan(v)]. *)
Definition math_isnan (v : pyval) : result bool :=
  match to_number v with
  | Some (NFloat f) => Ok (float_is_nan f)
  | Some (NInt z) => (_ <- float_of_int z ;; Ok false)%result
  | None => Raise (Exn TypeError ("must be real number, not " ++ type_name v) None)
  end.

(** ** Containers *)

Fixpoint dict_get (d : list (string * pyval)) (k : string) : option pyval :=
  match d with
  | [] => None
  | (k', v) :: d' => if String.eqb k k' then Some v else dict_get d' k
  end.

(** [v[k]] for a string key [k]. *)
Definition getitem (v : pyval) (k : string) : result pyval :=
  match v with
  | PDict d =>
      match dict_get d k with
      | Some x => Ok x
      | None => Raise (Exn KeyError ("'" ++ k ++ "'") None)
      end
  | PList _ => Raise (Exn TypeError "list indices must be integers or slices, not str" None)
  | PStr _ => Raise (Exn TypeError "string indices must be integers, not 'str'" None)
  | _ => Raise (Exn TypeError ("'" ++ type_name v ++ "' object is not subscriptable") None)
  end.

Fixpoint chars (s : string) : list pyval :=
  match s with
  | EmptyString => []
  | String c s' => PStr (String c EmptyString) :: chars s'
  end.

(** The items [iter(v)] yields: the elements of a list, the keys of a
    dict, the characters of a string. *)
Definition py_iter (v : pyval) : result (list pyval) :=
  match v with
  | PList l => Ok l
  | PDict d => Ok (map (fun kv => PStr (fst kv)) d)
  | PStr s => Ok (chars s)
  | _ => Raise (Exn TypeError ("'" ++ type_name v ++ "' object is not iterable") None)
  end.

(** [zip] stops at the end of the shorter sequence. *)
Fixpoint zip {A B : Type} (l1 : list A) (l2 : list B) : list (A * B) :=
  match l1, l2 with
  | a :: l1', b :: l2' => (a, b) :: zip l1' l2'
  | _, _ => []
  end.

(** [l[:n]]: a negative [n] counts from the end. *)
Definition slice_to {A : Type} (l : list A) (n : Z) : list A :=
  if 0 <=? n then firstn (Z.to_nat n) l
  else firstn (Z.to_nat (Z.of_nat (List.length l) + n)) l.

(** ** The state-and-exception monad

    A computation takes a state and gives a result and the state it
    leaves; the state survives a raised exception. *)

Definition M (St A : Type) : Type := St -> result A * St.

Definition ret {St A} (a : A) : M St A := fun s => (Ok a, s).
Definition raise {St A} (e : exn) : M St A := fun s => (Raise e, s).
Definition bind {St A B} (m : M St A) (k : A -> M St B) : M St B :=
  fun s => match m s with
           | (Ok a, s') => k a s'
           | (Raise e, s') => (Raise e, s')
           end.
Definition lift {St A} (r : result A) : M St A := fun s => (r, s).

(** [try: body / except c as e: handler e]. *)
Definition try_except {St A} (body : M St A) (c : exn_class) (handler : exn -> M St A)
  : M St A :=
  fun s => match body s with
           | (Raise e, s') => if isinstance e c then handler e s' else (Raise e, s')
           | r => r
           end.

(** Runs a computation on a part of the state. *)
Definition zoom {S T A} (part : S -> T) (update : S -> T -> S) (m : M T A) : M S A :=
  fun s => let (r, t') := m (part s) in (r, update s t').

(** Runs a method on the object [self] and gives the object back as the
    method left it; when the method raises, the exception goes on to the
    caller and the object is dropped. *)
Definition on_object {O T A} (self : O) (m : M (O * T) A) : M T O :=
  fun t => match m (self, t) with
           | (Ok _, s') => (Ok (fst s'), snd s')
           | (Raise e, s') => (Raise e, snd s')
           end.

(** The object of a method, and an update of it. *)
Definition self_ {O T} : M (O * T) O := fun s => (Ok (fst s), s).
Definition assign {O T} (f : O -> O) : M (O * T) unit :=
  fun s => (Ok tt, (f (fst s), snd s)).

(** Runs on the second component what does not touch the object. *)
Definition beside {O T A} (m : M T A) : M (O * T) A :=
  zoom snd (fun s t => (fst s, t)) m.

Declare Scope monad_scope.
Delimit Scope monad_scope with monad.
Notation "x <- c1 ;; c2" := (bind c1 (fun x => c2))
  (at level 100, c1 at next level, right associativity) : monad_scope.
Notation "c1 ;; c2" := (bind c1 (fun _ => c2))
  (at level 100, right associativity) : monad_scope.

(** ** The dataset object *)

Definition payload : Type := list (pyval * pyval).

Record HistoricalTemps : Type := {
  _zip_code : string;
  _start : string;
  _end : string;
  _lat : pyval;
  _lon : pyval;
  _loc_name : pyval;
  _temp_list : option payload
}.

Definition set_start (self : HistoricalTemps) (v : string) : HistoricalTemps :=
  {| _zip_code := _zip_code self; _start := v; _end := _end self;
     _lat := _lat self; _lon := _lon self; _loc_name := _loc_name self;
     _temp_list := _temp_list self |}.

Definition set_end (self : HistoricalTemps) (v : string) : HistoricalTemps :=
  {| _zip_code := _zip_code self; _start := _start self; _end := v;
     _lat := _lat self; _lon := _lon self; _loc_name := _loc_name self;
     _temp_list := _temp_list self |}.

Definition set_temp_list (self : HistoricalTemps) (v : option payload) : HistoricalTemps :=
  {| _zip_code := _zip_code self; _start := _start self; _end := _end self;
     _lat := _lat self; _lon := _lon self; _loc_name := _loc_name self;
     _temp_list := v |}.

(** The query parameters of the archive request. *)
Record archive_params : Type := {
  latitude : pyval;
  longitude : pyval;
  start_date : string;
  end_date : string;
  daily : string;
  timezone : string
}.

(** What the geocoder returns: a row that may be empty. *)
Record location : Type := {
  loc_empty : bool;
  loc_latitude : pyval;
  loc_longitude : pyval;
  loc_place_name : pyval
}.

Definition request_url : string := "https://archive-api.open-meteo.com/v1/archive".

Definition newline : string := String (ascii_of_nat 10) EmptyString.

(** * The outside services

    What the program calls and does not define: the HTTP client, the JSON
    parser, the geocoder, and the builtins that parse and format text.
    [env] is the state of everything outside the process (the network, the
    archive, the geocoder's data); a call to the HTTP client or to the
    geocoder may change it, the parsing and formatting builtins are pure. *)

Class Outside (env : Type) : Type := {
  (** [requests.get(url, params=params).text] *)
  requests_get : string -> archive_params -> M env string;
  (** [json.loads(data)] *)
  json_loads : string -> result pyval;
  (** [pgeocode.Nominatim(country).query_postal_code(zip_code)] *)
  query_postal_code : string -> string -> M env location;
  (** [int(s)] and [float(s)] on a string *)
  py_int : string -> result Z;
  py_float : string -> result float;
  (** [str(v)], and [format(v, spec)] as an f-string field [{v:spec}] does it *)
  py_str : pyval -> string;
  py_format : pyval -> string -> result string
}.

(** * The program *)

Section Program.

Context {env : Type} {services : Outside env}.

(** The methods of the class run on the object and [env]. *)
Definition obj : Type := HistoricalTemps * env.

(** ** class HistoricalTemps *)

(** [HistoricalTemps.zip_to_loc_info(zip_code)] *)
Definition zip_to_loc_info (zip_code : string) : M env (pyval * pyval * pyval) :=
  (location <- query_postal_code "us" zip_code ;;
   if loc_empty location then ret (PNone, PNone, PNone)
   else
     let lat := loc_latitude location in
     let lon := loc_longitude location in
     let loc_name := loc_place_name location in
     ret (lat, lon, loc_name))%monad.

(** [HistoricalTemps._convert_json_to_list(data)] *)
Definition _convert_json_to_list (data : string) : result payload :=
  (data_dict <- json_loads data ;;
   daily_1 <- getitem data_dict "daily" ;;
   dates <- getitem daily_1 "time" ;;
   daily_2 <- getitem data_dict "daily" ;;
   temps <- getitem daily_2 "temperature_2m_max" ;;
   date_items <- py_iter dates ;;
   temp_items <- py_iter temps ;;
   Ok (zip date_items temp_items))%result.

(** [self._load_temps()] *)
Definition _load_temps : M obj unit :=
  (self <- self_ ;;
   let params := {| latitude := _lat self;
                    longitude := _lon self;
                    start_date := _start self;
                    end_date := _end self;
                    daily := "temperature_2m_max";
                    timezone := "America/Los_Angeles" |} in
   json_data <- beside (requests_get request_url params) ;;
   temp_list <- lift (_convert_json_to_list json_data) ;;
   assign (fun self => set_temp_list self (Some temp_list)))%monad.

(** [HistoricalTemps(zip_code, start, end)] *)
Definition __init__ (zip_code start end_ : string) : M env HistoricalTemps :=
  (loc <- zip_to_loc_info zip_code ;;
   let '(lat, lon, loc_name) := loc in
   nan_lat <- lift (math_isnan lat) ;;
   nan_lat_or_lon <- (if nan_lat then ret true else lift (math_isnan lon)) ;;
   if nan_lat_or_lon
   then raise (Exn LookupError "Invalid zip code: Location not found" None)
   else
     let self := {| _zip_code := zip_code; _start := start; _end := end_;
                    _lat := lat; _lon := lon; _loc_name := loc_name;
                    _temp_list := None |} in
     on_object self _load_temps)%monad.

Definition default_start : string := "1950-08-13".
Definition default_end : string := "2023-08-25".

(** [sum(temps)] up to CPython 3.11: the items are added one after the
    other to the [int] 0, each addition rounded as [+] rounds it.  (From
    version 3.12 on CPython compensates the rounding errors of a sum of
    [float]s and can return a neighbouring [float]: that [sum] is
    [py_sum_compensated] below; on an empty list the two agree.) *)
Fixpoint py_sum (total : number) (items : list pyval) : result number :=
  match items with
  | [] => Ok total
  | x :: items' =>
      match to_number x with
      | Some n => (total' <- num_add total n ;; py_sum total' items')%result
      | None =>
          Raise (Exn TypeError ("unsupported operand type(s) for +: '"
                                  ++ type_name (of_number total) ++ "' and '"
                                  ++ type_name x ++ "'") None)
      end
  end.

Definition not_iterable_None {A} : result A :=
  Raise (Exn TypeError "'NoneType' object is not iterable" None).

(** [self.average_temp()] *)
Definition average_temp (self : HistoricalTemps) : result float :=
  match _temp_list self with
  | None => not_iterable_None
  | Some temp_list =>
      (total_temp <- py_sum (NInt 0) (map snd temp_list) ;;
       num_truediv_int total_temp (Z.of_nat (List.length temp_list)))%result
  end.

(** ** [sum] from CPython 3.12 on

    The program names no version of the interpreter, and [sum] is not the
    same in all of them.  Up to CPython 3.11 it is [py_sum] above.  From
    3.12 on, once its total is a [float], [sum] keeps beside the running
    total [f_result] a compensation [c] of the rounding errors (Neumaier's
    variant of Kahan's summation) and adds it to the total when the items
    end.  The total starts as the [int] 0 and is kept in a C [long], whose
    greatest value [LONG_MAX] depends on the platform. *)

Definition fsub : float -> float -> float := SFsub prec emax.
Definition fabs : float -> float := SFabs.

(** [x >= y] on [float]s, false on a NaN. *)
Definition fgeb (x y : float) : bool :=
  match fcompare x y with Some (Gt | Eq) => true | _ => false end.

Definition float_is_finite (f : float) : bool :=
  match f with
  | S754_zero _ | S754_finite _ _ _ => true
  | _ => false
  end.

(** One float [x] added: the new total and the new compensation. *)
Definition compensated_add (f_result c x : float) : float * float :=
  let t := fadd f_result x in
  if fgeb (fabs f_result) (fabs x)
  then (t, fadd c (fadd (fsub f_result t) x))
  else (t, fadd c (fadd (fsub x t) f_result)).

(** The compensation is added at the end, unless it is zero, infinite or
    NaN. *)
Definition add_compensation (f_result c : float) : float :=
  if negb (float_is_zero c) && float_is_finite c then fadd f_result c else f_result.

(** The value of an [int] item ([bool] is a subclass of [int]). *)
Definition int_value (v : pyval) : option Z :=
  match v with
  | PBool b => Some (Z.b2z b)
  | PInt z => Some z
  | _ => None
  end.

Section CompensatedSum.

Variable LONG_MAX : Z.

Definition fits_long (z : Z) : bool := (- LONG_MAX - 1 <=? z) && (z <=? LONG_MAX).

(** The loop of [sum] on a [float] total.  A [float] item is added with
    compensation, an [int] item that fits a [long] is converted and added
    to the total; any other item ends the loop: the compensation is added,
    and this item and the ones after it are added one by one, as [py_sum]
    does. *)
Fixpoint sum_floats (f_result c : float) (items : list pyval) : result number :=
  match items with
  | [] => Ok (NFloat (add_compensation f_result c))
  | PFloat x :: items' =>
      let (t, c') := compensated_add f_result c x in sum_floats t c' items'
  | item :: items' =>
      match int_value item with
      | Some value =>
          if fits_long value
          then sum_floats (fadd f_result (float_of_Z value)) c items'
          else py_sum (NFloat (add_compensation f_result c)) items
      | None => py_sum (NFloat (add_compensation f_result c)) items
      end
  end.

(** The loop of [sum] on an [int] total that fits a [long].  The first
    item that is no [int], or that takes the total out of the [long], is
    added as [+] adds it; when the total is then a [float] the loop above
    takes over, and otherwise the items are added one by one. *)
Fixpoint sum_ints (i_result : Z) (items : list pyval) : result number :=
  match items with
  | [] => Ok (NInt i_result)
  | item :: items' =>
      match int_value item with
      | Some b =>
          if fits_long b && fits_long (i_result + b)
          then sum_ints (i_result + b) items'
          else py_sum (NInt i_result) items
      | None =>
          match item with
          | PFloat x =>
              (f_result <- float_of_int i_result ;;
               sum_floats (fadd f_result x) (S754_zero false) items')%result
          | _ => py_sum (NInt i_result) items
          end
      end
  end.

(** [sum(temps)] from CPython 3.12 on. *)
Definition py_sum_compensated (items : list pyval) : result number :=
  sum_ints 0 items.

(** [self.average_temp()] where [sum] is the one of CPython 3.12 and
    later. *)
Definition average_temp_compensated (self : HistoricalTemps) : result float :=
  match _temp_list self with
  | None => not_iterable_None
  | Some temp_list =>
      (total_temp <- py_sum_compensated (map snd temp_list) ;;
       num_truediv_int total_temp (Z.of_nat (List.length temp_list)))%result
  end.

End CompensatedSum.

(** [self.is_data_loaded()] *)
Definition is_data_loaded (self : HistoricalTemps) : bool :=
  match _temp_list self with
  | Some _ => true
  | None => false
  end.

(** The properties [zip_code], [start], [end] and [loc_name]. *)
Definition zip_code (self : HistoricalTemps) : string := _zip_code self.
Definition start (self : HistoricalTemps) : string := _start self.
Definition end_ (self : HistoricalTemps) : string := _end self.
Definition loc_name (self : HistoricalTemps) : pyval := _loc_name self.

(** [self.start = value] *)
Definition start_setter (value : string) : M obj unit :=
  (self <- self_ ;;
   let old_start := _start self in
   assign (fun self => set_start self value) ;;
   try_except _load_temps Exception (fun e =>
     assign (fun self => set_start self old_start) ;;
     raise (Exn LookupError
              ("Can't load data for start date " ++ value ++ ": " ++ str_exn e)
              (Some e))))%monad.

(** [self.end = value] *)
Definition end_setter (value : string) : M obj unit :=
  (self <- self_ ;;
   let old_end := _end self in
   assign (fun self => set_end self value) ;;
   try_except _load_temps Exception (fun e =>
     assign (fun self => set_end self old_end) ;;
     raise (Exn LookupError
              ("Can't load data for end date " ++ value ++ ": " ++ str_exn e)
              (Some e))))%monad.

(** [temp > threshold] for a [float] threshold. *)
Definition py_gt_float (temp : pyval) (threshold : float) : result bool :=
  match to_number temp with
  | Some n => Ok (num_gt n (NFloat threshold))
  | None =>
      Raise (Exn TypeError ("'>' not supported between instances of '"
                              ++ type_name temp ++ "' and 'float'") None)
  end.

(** [[(date, temp) for date, temp in temp_list if temp > threshold]] *)
Fixpoint days_above (threshold : float) (temp_list : payload) : result payload :=
  match temp_list with
  | [] => Ok []
  | (date, temp) :: rest =>
      (keep <- py_gt_float temp threshold ;;
       rest' <- days_above threshold rest ;;
       Ok (if keep then (date, temp) :: rest' else rest'))%result
  end.

(** [self.extreme_days(threshold)] *)
Definition extreme_days (self : HistoricalTemps) (threshold : float) : result payload :=
  match _temp_list self with
  | None => not_iterable_None
  | Some temp_list => days_above threshold temp_list
  end.

(** [a < b] between two sort keys.  Numbers and strings are covered; two
    lists, which Python compares item by item, are not. *)
Definition py_lt (a b : pyval) : result bool :=
  match to_number a, to_number b, a, b with
  | Some x, Some y, _, _ => Ok (num_lt x y)
  | _, _, PStr s, PStr t => Ok (String.ltb s t)
  | _, _, _, _ =>
      Raise (Exn TypeError ("'<' not supported between instances of '"
                              ++ type_name a ++ "' and '" ++ type_name b ++ "'") None)
  end.

(** [sorted(temp_list, key=lambda x: x[1], reverse=True)], as the stable
    sort Python guarantees: an entry goes after the entries that are not
    below it and came before it.  The model is an insertion sort, which
    gives the result of Python's own algorithm whenever [<] orders the
    keys (so not when a key is NaN). *)
Fixpoint insert_desc (x : pyval * pyval) (sorted : payload) : result payload :=
  match sorted with
  | [] => Ok [x]
  | y :: sorted' =>
      (below <- py_lt (snd x) (snd y) ;;
       if below then (r <- insert_desc x sorted' ;; Ok (y :: r))
       else Ok (x :: y :: sorted'))%result
  end.

Fixpoint sorted_by_temp_reverse (temp_list : payload) : result payload :=
  match temp_list with
  | [] => Ok []
  | x :: rest => (s <- sorted_by_temp_reverse rest ;; insert_desc x s)%result
  end.

(** [self.top_x_days(num_days)] *)
Definition top_x_days (self : HistoricalTemps) (num_days : Z) : result payload :=
  match _temp_list self with
  | None => not_iterable_None
  | Some temp_list =>
      (s <- sorted_by_temp_reverse temp_list ;; Ok (slice_to s num_days))%result
  end.

(** ** The console

    The interactive functions run on the [world]: [env], the lines still
    to be read from the standard input, and what was written to the
    standard output. *)

Record world : Type := {
  w_env : env;
  w_stdin : list string;
  w_stdout : list string
}.

Definition write (s : string) : M world unit :=
  fun w => (Ok tt, {| w_env := w_env w; w_stdin := w_stdin w;
                      w_stdout := w_stdout w ++ [s] |}).

(** [print(s)] *)
Definition print (s : string) : M world unit := write (s ++ newline).

(** [input(prompt)]: the prompt is written, then a line is read; the end
    of the input raises [EOFError]. *)
Definition input (prompt : string) : M world string :=
  (write prompt ;;
   fun w => match w_stdin w with
            | [] => (Raise (Exn EOFError "EOF when reading a line" None), w)
            | line :: rest =>
                (Ok line, {| w_env := w_env w; w_stdin := rest;
                             w_stdout := w_stdout w |})
            end)%monad.

(** A computation on [env], run inside the world. *)
Definition outside {A} (m : M env A) : M world A :=
  zoom w_env (fun w e => {| w_env := e; w_stdin := w_stdin w;
                            w_stdout := w_stdout w |}) m.

(** A method of the dataset, run where the dataset sits beside the world. *)
Definition method {A} (m : M obj A) : M (HistoricalTemps * world) A :=
  zoom (fun s => (fst s, w_env (snd s)))
       (fun s s' => (fst s', {| w_env := snd s'; w_stdin := w_stdin (snd s);
                                w_stdout := w_stdout (snd s) |})) m.

(** ** The interactive functions *)

(** [create_dataset()] *)
Definition create_dataset : M world (option HistoricalTemps) :=
  (zip_code <- input "Please enter a zip code: " ;;
   try_except
     (dataset <- outside (__init__ zip_code default_start default_end) ;;
      ret (Some dataset))
     LookupError
     (fun _ =>
        print "Error: The entered zip code is invalid. Please try again." ;;
        ret None))%monad.

(** [for x in items: body x] *)
Fixpoint for_each {A St} (items : list A) (body : A -> M St unit) : M St unit :=
  match items with
  | [] => ret tt
  | x :: items' => (body x ;; for_each items' body)%monad
  end.

(** [print_extreme_days(dataset)] *)
Definition print_extreme_days (dataset : HistoricalTemps) : M world unit :=
  (if negb (is_data_loaded dataset)
   then print "The dataset is not loaded."
   else
     entered <- try_except
                  (line <- input "Enter a threshold temperature: " ;;
                   threshold <- lift (py_float line) ;;
                   ret (Some threshold))
                  ValueError
                  (fun _ =>
                     print "Please enter a valid number for the threshold temperature." ;;
                     ret None) ;;
     match entered with
     | None => ret tt
     | Some threshold =>
         extreme_days_list <- lift (extreme_days dataset threshold) ;;
         shown <- lift (py_format (PFloat threshold) ".1f") ;;
         print ("There are "
                  ++ py_str (PInt (Z.of_nat (List.length extreme_days_list)))
                  ++ " days when the temperature exceeded " ++ shown ++ " degrees.") ;;
         for_each extreme_days_list (fun day =>
           let '(date, temp) := day in
           temp_shown <- lift (py_format temp ".1f") ;;
           print ("Date: " ++ py_str date ++ ", Temperature: " ++ temp_shown
                    ++ " degrees"))
     end)%monad.

(** [print_top_five_days(dataset)] *)
Definition print_top_five_days (dataset : HistoricalTemps) : M world unit :=
  (if negb (is_data_loaded dataset)
   then print "The temperature data is not loaded. Please check dataset."
   else
     top_days <- lift (top_x_days dataset 5) ;;
     print ("Top 5 hottest days for " ++ py_str (loc_name dataset) ++ ":") ;;
     for_each top_days (fun day =>
       let '(date, temp) := day in
       print ("Date: " ++ py_str date ++ ", Temperature: " ++ py_str temp ++ "Â°F")))%monad.

(** [compare_average_temps(dataset_one, dataset_two)] *)
Definition compare_average_temps (dataset_one dataset_two : HistoricalTemps) : M world unit :=
  (if negb (is_data_loaded dataset_one) || negb (is_data_loaded dataset_two)
   then print "One or both of the datasets are not loaded."
   else
     avg_temp_one <- lift (average_temp dataset_one) ;;
     avg_temp_two <- lift (average_temp dataset_two) ;;
     shown_one <- lift (py_format (PFloat avg_temp_one) ".2f") ;;
     print ("The average temperature in " ++ py_str (loc_name dataset_one) ++ " "
              ++ "is " ++ shown_one ++ " degrees.") ;;
     shown_two <- lift (py_format (PFloat avg_temp_two) ".2f") ;;
     print ("The average temperature in " ++ py_str (loc_name dataset_two) ++ " "
              ++ "is " ++ shown_two ++ " degrees."))%monad.

(** [change_dates(dataset)]; the dataset is the object of the state. *)
Definition change_dates : M (HistoricalTemps * world) unit :=
  (dataset <- self_ ;;
   if negb (is_data_loaded dataset)
   then beside (print "The tempe data is not loaded. Please check dataset.")
   else
     start_changed <- try_except
                        (new_start <- beside (input "Enter the new start date (YYYY-MM-DD): ") ;;
                         method (start_setter new_start) ;;
                         ret true)
                        LookupError
                        (fun e =>
                           beside (print ("Failed to change the start date: " ++ str_exn e)) ;;
                           ret false) ;;
     if negb start_changed then ret tt
     else
       end_changed <- try_except
                        (new_end <- beside (input "Enter the new end date (YYYY-MM-DD): ") ;;
                         method (end_setter new_end) ;;
                         ret true)
                        LookupError
                        (fun e =>
                           beside (print ("Failed to change the end date: " ++ str_exn e)) ;;
                           ret false) ;;
       if negb end_changed then ret tt
       else beside (print "Dates successfully changed."))%monad.

(** [print_menu(dataset_one, dataset_two)] *)
Definition print_menu (dataset_one dataset_two : option HistoricalTemps) : M world unit :=
  (print "Main Menu" ;;
   match dataset_one with
   | None => print "1 - Load dataset one"
   | Some d => print ("1 - Replace " ++ py_str (loc_name d))
   end ;;
   match dataset_two with
   | None => print "2 - Load dataset two"
   | Some d => print ("2 - Replace " ++ py_str (loc_name d))
   end ;;
   print "3 - Compare average temperatures" ;;
   print "4 - Dates above threshold temperature" ;;
   print "5 - Highest historical dates" ;;
   print "6 - Change start and end dates for dataset one" ;;
   print "7 - Change start and end dates for dataset two" ;;
   print "9 - Quit")%monad.

(** What one turn of the menu loop leaves: whether the loop goes on, and
    the two local variables [dataset_one] and [dataset_two]. *)
Inductive loop_ctl : Type := Continue | Break.

Record slots : Type := {
  dataset_one : option HistoricalTemps;
  dataset_two : option HistoricalTemps
}.

(** The body of [while True] in [menu()]. *)
Definition menu_body (sl : slots) : M world (loop_ctl * slots) :=
  (print_menu (dataset_one sl) (dataset_two sl) ;;
   chosen <- try_except
               (line <- input "What is your choice?" ;;
                option <- lift (py_int line) ;;
                ret (Some option))
               ValueError
               (fun _ => print "Please enter a number only" ;; ret None) ;;
   match chosen with
   | None => ret (Continue, sl)
   | Some 1 =>
       d <- create_dataset ;;
       ret (Continue, {| dataset_one := d; dataset_two := dataset_two sl |})
   | Some 2 =>
       d <- create_dataset ;;
       ret (Continue, {| dataset_one := dataset_one sl; dataset_two := d |})
   | Some 3 =>
       match dataset_one sl, dataset_two sl with
       | Some d1, Some d2 => compare_average_temps d1 d2
       | _, _ => print "Both datasets must be loaded before comparing."
       end ;;
       ret (Continue, sl)
   | Some 4 =>
       match dataset_one sl with
       | Some d1 => print_extreme_days d1
       | None => print "Dataset one must be loaded first."
       end ;;
       ret (Continue, sl)
   | Some 5 =>
       match dataset_one sl with
       | Some d1 => print_top_five_days d1
       | None => print "Dataset one must be loaded first."
       end ;;
       ret (Continue, sl)
   | Some 6 =>
       match dataset_one sl with
       | Some d1 =>
           d1' <- on_object d1 change_dates ;;
           ret (Continue, {| dataset_one := Some d1'; dataset_two := dataset_two sl |})
       | None => print "Dataset one must be loaded first." ;; ret (Continue, sl)
       end
   | Some 7 =>
       match dataset_two sl with
       | Some d2 =>
           d2' <- on_object d2 change_dates ;;
           ret (Continue, {| dataset_one := dataset_one sl; dataset_two := Some d2' |})
       | None => print "Dataset two must be loaded first." ;; ret (Continue, sl)
       end
   | Some 9 => ret (Break, sl)
   | Some _ => print "That wasn't a valid selection" ;; ret (Continue, sl)
   end)%monad.

(** The loop of [menu()], for at most [fuel] turns; [None] when the turns
    run out before the loop ends. *)
Fixpoint menu_loop (fuel : nat) (sl : slots) (w : world) : option (result unit * world) :=
  match fuel with
  | O => None
  | S fuel' =>
      match menu_body sl w with
      | (Raise e, w') => Some (Raise e, w')
      | (Ok (Break, _), w') => Some (print "Goodbye! Thank you for using the database" w')
      | (Ok (Continue, sl'), w') => menu_loop fuel' sl' w'
      end
  end.

(** [menu()] *)
Definition menu (fuel : nat) (w : world) : option (result unit * world) :=
  menu_loop fuel {| dataset_one := None; dataset_two := None |} w.

(** [main()] *)
Definition main (fuel : nat) (w : world) : option (result unit * world) :=
  match input "Please enter your name: " w with
  | (Raise e, w') => Some (Raise e, w')
  | (Ok name, w') =>
      match (print ("Hi " ++ name ++ ", let's explore some historical temperatures.") ;;
             print "")%monad w' with
      | (Raise e, w'') => Some (Raise e, w'')
      | (Ok _, w'') => menu fuel w''
      end
  end.

(** The lines still to be read, for a computation on the world and for one
    on a dataset beside the world. *)
Definition lines_left (w : world) : nat := List.length (w_stdin w).
Definition lines_left_beside (s : HistoricalTemps * world) : nat := lines_left (snd s).

End Program.

(** A computation that reads lines and never puts one back: the number of
    lines left, measured by [lines], does not grow. *)
Definition no_growth {St A} (lines : St -> nat) (m : M St A) : Prop :=
  forall s r s', m s = (r, s') -> (lines s' <= lines s)%nat.

(** * Payloads of dated temperatures

    The payload the specification speaks of: a date string and a [float]
    temperature per day.  [entries] is the Python list that holds it. *)

Definition day : Type := (string * float)%type.

Definition entry (d : day) : pyval * pyval := (PStr (fst d), PFloat (snd d)).

Definition entries (days : list day) : payload := map entry days.

(** The dataset [self] once the payload [days] is loaded into it. *)
Definition loaded (self : HistoricalTemps) (days : list day) : HistoricalTemps :=
  set_temp_list self (Some (entries days)).

(** The comparisons of two [float]s, all false on a NaN. *)
Definition fltb (x y : float) : bool :=
  match fcompare x y with Some Lt => true | _ => false end.
Definition fgtb (x y : float) : bool :=
  match fcompare x y with Some Gt => true | _ => false end.
Definition fleb (x y : float) : bool :=
  match fcompare x y with Some (Lt | Eq) => true | _ => false end.
Definition feqb (x y : float) : bool :=
  match fcompare x y with Some Eq => true | _ => false end.

(** The sum of [float]s as [sum] accumulates it, from [float(0)]. *)
Definition fsum (temps : list float) : float :=
  fold_left fadd temps (S754_zero false).

(** The sum of [float]s as [sum] accumulates it from CPython 3.12 on: the
    first is added to [float(0)], the others with compensation, and the
    compensation at the end. *)
Fixpoint fsum_steps (f_result c : float) (temps : list float) : float :=
  match temps with
  | [] => add_compensation f_result c
  | x :: temps' =>
      let (t, c') := compensated_add f_result c x in fsum_steps t c' temps'
  end.

Definition fsum_compensated (temps : list float) : float :=
  match temps with
  | [] => S754_zero false
  | x :: temps' => fsum_steps (fadd (S754_zero false) x) (S754_zero false) temps'
  end.

(** [t] is the highest temperature of the payload. *)
Definition is_max_temp (t : float) (days : list day) : Prop :=
  In t (map snd days) /\ Forall (fun d => fleb (snd d) t = true) days.

(** The temperatures go down along the list. *)
Definition descending (days : list day) : Prop :=
  StronglySorted (fun a b => fleb (snd b) (snd a) = true) days.

(** The days of temperature [v], in the order the list has them. *)
Definition days_at (v : float) (days : list day) : list day :=
  filter (fun d => feqb (snd d) v) days.

(** No temperature is NaN. *)
Definition no_nan (days : list day) : Prop :=
  Forall (fun d => float_is_nan (snd d) = false) days.

(** * A concrete world for the examples

    A geocoder that knows one zip code, an archive that serves three days
    of temperatures and refuses some dates, and a console. *)

Module Demo.

(** The state outside is the number of archive requests made so far. *)
Definition env : Type := nat.

(** The decimal [m / 10 ^ digits], rounded to the nearest [float]. *)
Definition dec (m digits : Z) : float :=
  fdiv (float_of_Z m) (float_of_Z (10 ^ digits)).

Definition nan : float := S754_nan.

Definition seattle : location :=
  {| loc_empty := false;
     loc_latitude := PFloat (dec 476114 4);
     loc_longitude := PFloat (dec (-1223305) 4);
     loc_place_name := PStr "Seattle" |}.

Definition unknown_row : location :=
  {| loc_empty := false;
     loc_latitude := PFloat nan;
     loc_longitude := PFloat nan;
     loc_place_name := PFloat nan |}.

Definition empty_row : location :=
  {| loc_empty := true;
     loc_latitude := PNone;
     loc_longitude := PNone;
     loc_place_name := PNone |}.

Definition geocoder (country zip_code : string) : M env location :=
  if String.eqb zip_code "98101" then ret seattle
  else if String.eqb zip_code "" then ret empty_row
  else ret unknown_row.

(** The archive: unreachable for a start date in 1900, an error body for
    an end date in 2999, arrays of different lengths for a start date
    "2023-08-01", and three days otherwise. *)
Definition archive (url : string) (params : archive_params) : M env string :=
  fun n =>
    if String.eqb (start_date params) "1900-01-01"
    then (Raise (Exn RequestException "connection refused" None), S n)
    else if String.eqb (end_date params) "2999-12-31"
    then (Ok "error body", S n)
    else if String.eqb (start_date params) "2023-08-01"
    then (Ok "uneven body", S n)
    else (Ok "three days", S n).

Definition D1 : pyval := PStr "2023-08-23".
Definition D2 : pyval := PStr "2023-08-24".
Definition D3 : pyval := PStr "2023-08-25".
Definition t60 : pyval := PFloat (float_of_Z 60).
Definition t75 : pyval := PFloat (float_of_Z 75).
Definition t50 : pyval := PFloat (float_of_Z 50).

Definition parse (data : string) : result pyval :=
  if String.eqb data "three days"
  then Ok (PDict [("daily", PDict [("time", PList [D1; D2; D3]);
                                   ("temperature_2m_max", PList [t60; t75; t50])])])
  else if String.eqb data "uneven body"
  then Ok (PDict [("daily", PDict [("time", PList [D1; D2; D3]);
                                   ("temperature_2m_max", PList [t60; t75])])])
  else if String.eqb data "error body"
  then Ok (PDict [("error", PBool true); ("reason", PStr "Invalid date")])
  else Raise (Exn JSONDecodeError "Expecting value: line 1 column 1 (char 0)" None).

Definition to_int (s : string) : result Z :=
  if String.eqb s "1" then Ok 1
  else if String.eqb s "2" then Ok 2
  else if String.eqb s "6" then Ok 6
  else if String.eqb s "9" then Ok 9
  else Raise (Exn ValueError ("invalid literal for int() with base 10: '" ++ s ++ "'") None).

Definition to_float (s : string) : result float :=
  if String.eqb s "55" then Ok (float_of_Z 55)
  else Raise (Exn ValueError ("could not convert string to float: '" ++ s ++ "'") None).

(** Only strings are shown as they are; the text of other values does not
    matter to the examples. *)
Definition show (v : pyval) : string :=
  match v with
  | PStr s => s
  | _ => "?"
  end.

Definition format (v : pyval) (spec : string) : result string := Ok (show v).

Definition three_days : payload := [(D1, t60); (D2, t75); (D3, t50)].

(** The dataset [HistoricalTemps("98101", "2023-08-23", "2023-08-25")]
    once it is loaded. *)
Definition seattle_temps : HistoricalTemps :=
  {| _zip_code := "98101"; _start := "2023-08-23"; _end := "2023-08-25";
     _lat := loc_latitude seattle; _lon := loc_longitude seattle;
     _loc_name := loc_place_name seattle;
     _temp_list := Some three_days |}.

#[global] Instance services : Outside env := {
  requests_get := archive;
  json_loads := parse;
  query_postal_code := geocoder;
  py_int := to_int;
  py_float := to_float;
  py_str := show;
  py_format := format
}.

Definition console (lines : list string) : world :=
  {| w_env := O; w_stdin := lines; w_stdout := [] |}.

End Demo.

(** * A world in which the archive is out of order

    The state says how: [true] when the archive answers every request with
    an error body, [false] when it cannot be reached at all.  The geocoder
    and the builtins are those of [Demo]. *)

Module Outage.

Definition env : Type := bool.

Definition geocoder (country zip_code : string) : M env location :=
  if String.eqb zip_code "98101" then ret Demo.seattle else ret Demo.unknown_row.

Definition archive (url : string) (params : archive_params) : M env string :=
  fun answering =>
    if answering then (Ok "error body", answering)
    else (Raise (Exn RequestException "connection refused" None), answering).

#[global] Instance services : Outside env := {
  requests_get := archive;
  json_loads := Demo.parse;
  query_postal_code := geocoder;
  py_int := Demo.to_int;
  py_float := Demo.to_float;
  py_str := Demo.show;
  py_format := Demo.format
}.

Definition console (answering : bool) (lines : list string) : world :=
  {| w_env := answering; w_stdin := lines; w_stdout := [] |}.

End Outage.

(** * The slots of the menu

    Every dataset a slot holds has a payload. *)

Definition slot_loaded (slot : option HistoricalTemps) : Prop :=
  match slot with
  | Some d => is_data_loaded d = true
  | None => True
  end.

Definition slots_loaded (sl : slots) : Prop :=
  slot_loaded (dataset_one sl) /\ slot_loaded (dataset_two sl).

(** * The request of a load

    The parameters [_load_temps] sends for the dataset [self]. *)

Definition request_of (self : HistoricalTemps) : archive_params :=
  {| latitude := _lat self; longitude := _lon self;
     start_date := _start self; end_date := _end self;
     daily := "temperature_2m_max"; timezone := "America/Los_Angeles" |}.

(** * Invariants of computations

    A computation keeps [P] when every state it leaves satisfies [P] if the
    state it started from did, whether it returns or raises. *)

Definition keeps {St A} (P : St -> Prop) (m : M St A) : Prop :=
  forall s r s', m s = (r, s') -> P s -> P s'.

(** The dataset of the state has a payload. *)
Definition dataset_loaded {T : Type} (s : HistoricalTemps * T) : Prop :=
  is_data_loaded (fst s) = true.

(** The state a bounded run leaves, and [otherwise] when the bound was
    reached first. *)
Definition w_after {W A : Type} (run : option (A * W)) (otherwise : W) : W :=
  match run with
  | Some (_, w) => w
  | None => otherwise
  end.

(** * The lines the printing functions write *)

Section Lines.
Context {env : Type} {services : Outside env}.

(** The header and the line of a day in [print_top_five_days]. *)
Definition top_five_header (self : HistoricalTemps) : string :=
  ("Top 5 hottest days for " ++ py_str (loc_name self) ++ ":") ++ newline.

Definition top_five_line (d : day) : string :=
  ("Date: " ++ py_str (PStr (fst d)) ++ ", Temperature: " ++ py_str (PFloat (snd d))
     ++ "Â°F") ++ newline.

(** The line of the count and the line of a day in [print_extreme_days],
    with [shown] for the text of a number to one decimal. *)
Definition extreme_days_header (count : nat) (shown_threshold : string) : string :=
  ("There are " ++ py_str (PInt (Z.of_nat count))
     ++ " days when the temperature exceeded " ++ shown_threshold ++ " degrees.")
    ++ newline.

Definition extreme_days_line (shown : float -> string) (d : day) : string :=
  ("Date: " ++ py_str (PStr (fst d)) ++ ", Temperature: " ++ shown (snd d)
     ++ " degrees") ++ newline.

End Lines.

(** * Data of the examples *)

(** The days of [Demo.three_days], typed. *)
Definition three_typed_days : list day :=
  [("2023-08-23", float_of_Z 60); ("2023-08-24", float_of_Z 75);
   ("2023-08-25", float_of_Z 50)].

(** The dataset [HistoricalTemps("98101")], with the default dates, once it
    is loaded. *)
Definition seattle_default : HistoricalTemps :=
  set_end (set_start Demo.seattle_temps default_start) default_end.

(** * Proofs *)

Ltac run :=
  unfold bind, ret, raise, lift, self_, assign, beside, zoom, try_except, on_object in *;
  simpl in *.

(** ** Exceptions *)

Lemma issubclass_Exception (c : exn_class) : issubclass c Exception = true.
Proof. destruct c; reflexivity. Qed.

Lemma isinstance_Exception (e : exn) : isinstance e Exception = true.
Proof. apply issubclass_Exception. Qed.

(** ** The order of floats *)

Ltac cmp_cases :=
  repeat match goal with
         | |- context [Z.compare ?a ?b] => destruct (Z.compare_spec a b)
         | H : context [Z.compare ?a ?b] |- _ => destruct (Z.compare_spec a b)
         | |- context [Pos.compare ?a ?b] => destruct (Pos.compare_spec a b)
         | H : context [Pos.compare ?a ?b] |- _ => destruct (Pos.compare_spec a b)
         end.

Lemma fcompare_antisym (x y : float) :
  fcompare y x = option_map CompOpp (fcompare x y).
Proof.
  destruct x as [[]|[]| |[] m1 e1], y as [[]|[]| |[] m2 e2]; simpl; try reflexivity;
    rewrite ?Pos.compare_cont_spec; simpl;
    rewrite (Z.compare_antisym e1 e2), (Pos.compare_antisym m1 m2);
    destruct (e1 ?= e2), (m1 ?= m2)%positive; reflexivity.
Qed.

Lemma fcompare_total (x y : float) :
  float_is_nan x = false -> float_is_nan y = false -> exists c, fcompare x y = Some c.
Proof.
  destruct x, y; simpl; intros; try discriminate; eauto.
Qed.

Lemma fleb_trans (x y z : float) :
  fleb x y = true -> fleb y z = true -> fleb x z = true.
Proof.
  unfold fleb.
  destruct x as [[]|[]| |[] m1 e1], y as [[]|[]| |[] m2 e2], z as [[]|[]| |[] m3 e3]; simpl;
    try congruence; rewrite ?Pos.compare_cont_spec; simpl;
    cmp_cases; subst; simpl; try congruence; try lia.
Qed.

Lemma fltb_fleb (x y : float) : fltb x y = true -> fleb x y = true.
Proof. unfold fltb, fleb. destruct (fcompare x y) as [[]|]; congruence. Qed.

Lemma not_fltb_fleb (x y : float) :
  float_is_nan x = false -> float_is_nan y = false ->
  fltb x y = false -> fleb y x = true.
Proof.
  intros Hx Hy. unfold fltb, fleb. rewrite (fcompare_antisym x y).
  destruct (fcompare_total x y Hx Hy) as [c ->]. destruct c; simpl; congruence.
Qed.

Lemma fleb_not_fgtb (x t : float) : fleb x t = true -> fgtb x t = false.
Proof. unfold fleb, fgtb. destruct (fcompare x t) as [[]|]; congruence. Qed.

Lemma feqb_not_fltb (v x y : float) :
  feqb x v = true -> feqb y v = true -> fltb x y = false.
Proof.
  unfold feqb, fltb.
  destruct x as [[]|[]| |[] m1 e1], y as [[]|[]| |[] m2 e2], v as [[]|[]| |[] m3 e3]; simpl;
    try congruence; rewrite ?Pos.compare_cont_spec; simpl;
    cmp_cases; subst; simpl; try congruence; try lia.
Qed.

(** ** extreme_days *)

Lemma days_above_entries (t : float) (days : list day) :
  days_above t (entries days) = Ok (entries (filter (fun d => fgtb (snd d) t) days)).
Proof.
  induction days as [|[date temp] days IH]; simpl; [reflexivity|].
  rewrite IH. simpl. unfold num_gt, fgtb. simpl.
  destruct (fcompare temp t) as [[]|]; reflexivity.
Qed.

(** C4, as the code has it.  For every payload of dated [float]
    temperatures and every threshold [t], [extreme_days(t)] returns exactly
    the entries whose temperature is strictly greater than [t], in the order
    of the payload; when [t] is the highest temperature of the payload, the
    result is empty. *)
Theorem extreme_days_spec (self : HistoricalTemps) (days : list day) (t : float) :
  extreme_days (loaded self days) t
  = Ok (entries (filter (fun d => fgtb (snd d) t) days))
  /\ (is_max_temp t days -> extreme_days (loaded self days) t = Ok []).
Proof.
  assert (E : extreme_days (loaded self days) t
              = Ok (entries (filter (fun d => fgtb (snd d) t) days))).
  { unfold extreme_days, loaded. simpl. apply days_above_entries. }
  split; [exact E|].
  intros [_ Hmax]. rewrite E. clear E. f_equal.
  replace (filter (fun d => fgtb (snd d) t) days) with (@nil day); [reflexivity|].
  symmetry. induction Hmax as [|d days Hd _ IH]; simpl; [reflexivity|].
  rewrite (fleb_not_fgtb _ _ Hd). exact IH.
Qed.

Lemma extreme_days_spec_witness :
  is_max_temp (float_of_Z 75) [("2023-08-23", float_of_Z 60); ("2023-08-24", float_of_Z 75)]
  /\ extreme_days
       (loaded Demo.seattle_temps
               [("2023-08-23", float_of_Z 60); ("2023-08-24", float_of_Z 75)])
       (float_of_Z 75) = Ok [].
Proof.
  assert (H : is_max_temp (float_of_Z 75)
                [("2023-08-23", float_of_Z 60); ("2023-08-24", float_of_Z 75)]).
  { split; [right; left; reflexivity|]. repeat constructor. }
  split; [exact H|].
  exact (proj2 (extreme_days_spec Demo.seattle_temps _ (float_of_Z 75)) H).
Defined.

(** C4 as stated fails on a loaded payload that holds a day without a
    temperature (the [null] of the archive, loaded as [None]):
    [extreme_days] raises [TypeError] on it and returns no list, although
    the day before is above the threshold. *)
Lemma extreme_days_fails_on_null_temperature :
  is_data_loaded (set_temp_list Demo.seattle_temps
                    (Some [(Demo.D1, Demo.t60); (Demo.D2, PNone)])) = true
  /\ extreme_days (set_temp_list Demo.seattle_temps
                     (Some [(Demo.D1, Demo.t60); (Demo.D2, PNone)])) (float_of_Z 55)
     = Raise (Exn TypeError
                "'>' not supported between instances of 'NoneType' and 'float'" None)
  /\ ~ (exists above,
          extreme_days (set_temp_list Demo.seattle_temps
                          (Some [(Demo.D1, Demo.t60); (Demo.D2, PNone)])) (float_of_Z 55)
          = Ok above).
Proof.
  split; [reflexivity|]. split; [reflexivity|].
  intros [above H]. discriminate H.
Qed.

(** ** average_temp on an empty payload *)

(** C6. On a dataset whose loaded payload is empty, [average_temp()]
    divides by zero: the interpreter's [ZeroDivisionError] comes out, no
    check of the program stands before the division and no error of its
    own is raised. *)
Theorem average_temp_empty (self : HistoricalTemps) :
  _temp_list self = Some [] ->
  average_temp self = Raise (Exn ZeroDivisionError "division by zero" None).
Proof.
  intros H. unfold average_temp. rewrite H. reflexivity.
Qed.

Lemma average_temp_empty_witness :
  average_temp (set_temp_list Demo.seattle_temps (Some []))
  = Raise (Exn ZeroDivisionError "division by zero" None).
Proof.
  apply (average_temp_empty (set_temp_list Demo.seattle_temps (Some []))).
  reflexivity.
Defined.

(** The same holds with the [sum] of CPython 3.12 and later, which returns
    the [int] 0 on an empty list as well. *)
Lemma average_temp_compensated_empty (LONG_MAX : Z) (self : HistoricalTemps) :
  _temp_list self = Some [] ->
  average_temp_compensated LONG_MAX self
  = Raise (Exn ZeroDivisionError "division by zero" None).
Proof.
  intros H. unfold average_temp_compensated. rewrite H. reflexivity.
Qed.

(** ** top_x_days *)

Lemma py_lt_floats (x y : float) : py_lt (PFloat x) (PFloat y) = Ok (fltb x y).
Proof. reflexivity. Qed.

Lemma days_at_cons (v : float) (d : day) (days : list day) :
  days_at v (d :: days) = if feqb (snd d) v then d :: days_at v days else days_at v days.
Proof. reflexivity. Qed.

Lemma insert_desc_cons (x y : pyval * pyval) (s : payload) :
  insert_desc x (y :: s)
  = (below <- py_lt (snd x) (snd y) ;;
     if below then (r <- insert_desc x s ;; Ok (y :: r)) else Ok (x :: y :: s))%result.
Proof. reflexivity. Qed.

Lemma insert_desc_entries (x : day) (s : list day) :
  exists r,
    insert_desc (entry x) (entries s) = Ok (entries r)
    /\ Permutation r (x :: s)
    /\ (forall v, days_at v r = days_at v (x :: s))
    /\ (no_nan (x :: s) -> descending s -> descending r).
Proof.
  induction s as [|y s IH].
  - exists [x]. repeat split; auto. intros _ _. repeat constructor.
  - change (entries (y :: s)) with (entry y :: entries s).
    rewrite insert_desc_cons.
    change (py_lt (snd (entry x)) (snd (entry y))) with (Ok (A:=bool) (fltb (snd x) (snd y))).
    cbn [rbind]. destruct (fltb (snd x) (snd y)) eqn:Hlt.
    + destruct IH as (r & Hr & Hperm & Hstable & Hsorted).
      exists (y :: r). rewrite Hr. cbn [rbind].
      split; [reflexivity|]. repeat split.
      * rewrite Hperm. apply perm_swap.
      * intros v. rewrite !days_at_cons, Hstable, days_at_cons.
        destruct (feqb (snd y) v) eqn:Hy, (feqb (snd x) v) eqn:Hx; try reflexivity.
        rewrite (feqb_not_fltb v _ _ Hx Hy) in Hlt. discriminate.
      * intros Hnan Hdesc. inversion Hnan as [|? ? Hx Hys]; subst.
        inversion Hys as [|? ? Hy Hs]; subst.
        apply StronglySorted_inv in Hdesc. destruct Hdesc as [Hdesc Hall].
        constructor.
        -- apply Hsorted; [constructor|]; assumption.
        -- apply (Permutation_Forall (Permutation_sym Hperm)).
           constructor; [apply fltb_fleb; exact Hlt | exact Hall].
    + exists (x :: y :: s). repeat split; auto.
      intros Hnan Hdesc. inversion Hnan as [|? ? Hx Hys]; subst.
      inversion Hys as [|? ? Hy Hs]; subst.
      pose proof (not_fltb_fleb _ _ Hx Hy Hlt) as Hyx.
      constructor; [exact Hdesc|]. constructor; [exact Hyx|].
      apply StronglySorted_inv in Hdesc. destruct Hdesc as [_ Hall].
      eapply Forall_impl; [|exact Hall]. simpl. intros b Hb.
      eapply fleb_trans; eassumption.
Qed.

Lemma sorted_entries (days : list day) :
  exists s,
    sorted_by_temp_reverse (entries days) = Ok (entries s)
    /\ Permutation s days
    /\ (forall v, days_at v s = days_at v days)
    /\ (no_nan days -> descending s).
Proof.
  induction days as [|x days IH].
  - exists []. repeat split; auto. intros _. constructor.
  - destruct IH as (s & Hs & Hperm & Hstable & Hsorted).
    destruct (insert_desc_entries x s) as (r & Hr & Hperm' & Hstable' & Hsorted').
    exists r. simpl. rewrite Hs. simpl. rewrite Hr. repeat split.
    + rewrite Hperm'. constructor. exact Hperm.
    + intros v. rewrite Hstable', !days_at_cons, Hstable. reflexivity.
    + intros Hnan. inversion Hnan as [|? ? Hx Hdays]; subst.
      apply Hsorted'; [|apply Hsorted; exact Hdays].
      constructor; [exact Hx|].
      apply (Permutation_Forall (Permutation_sym Hperm)). exact Hdays.
Qed.

(** C3, as the code has it.  For every payload of dated temperatures
    without NaN and every [n >= 0], [top_x_days(n)] returns the first
    [min(n, |payload|)] entries [top] of the payload sorted by temperature,
    highest first: [top] followed by the entries left out is a
    rearrangement of the payload in which the temperatures go down, and in
    which the days of one temperature keep the order the payload has them
    in; when [n] is at least the size of the payload nothing is left out. *)
Theorem top_x_days_spec (self : HistoricalTemps) (days : list day) (n : Z) :
  0 <= n ->
  no_nan days ->
  exists top rest : list day,
    top_x_days (loaded self days) n = Ok (entries top)
    /\ Z.of_nat (List.length top) = Z.min n (Z.of_nat (List.length days))
    /\ Permutation (top ++ rest) days
    /\ descending (top ++ rest)
    /\ (forall v, days_at v (top ++ rest) = days_at v days)
    /\ (Z.of_nat (List.length days) <= n -> rest = []).
Proof.
  intros Hn Hnan.
  destruct (sorted_entries days) as (s & Hs & Hperm & Hstable & Hsorted).
  exists (firstn (Z.to_nat n) s), (skipn (Z.to_nat n) s).
  rewrite firstn_skipn.
  pose proof (Permutation_length Hperm) as Hlen.
  repeat split; auto.
  - unfold top_x_days, loaded. simpl. rewrite Hs. simpl. unfold slice_to.
    destruct (0 <=? n) eqn:E; [|apply Z.leb_gt in E; lia].
    unfold entries. rewrite firstn_map. reflexivity.
  - rewrite length_firstn. lia.
  - intros Hle. apply skipn_all2. lia.
Qed.

Lemma top_x_days_spec_witness :
  exists top rest : list day,
    top_x_days (loaded Demo.seattle_temps
                  [("2023-08-23", float_of_Z 60); ("2023-08-24", float_of_Z 75);
                   ("2023-08-25", float_of_Z 50)]) 2 = Ok (entries top)
    /\ Z.of_nat (List.length top) = Z.min 2 (Z.of_nat 3)
    /\ Permutation (top ++ rest)
         [("2023-08-23", float_of_Z 60); ("2023-08-24", float_of_Z 75);
          ("2023-08-25", float_of_Z 50)]
    /\ descending (top ++ rest)
    /\ (forall v, days_at v (top ++ rest)
                  = days_at v [("2023-08-23", float_of_Z 60); ("2023-08-24", float_of_Z 75);
                               ("2023-08-25", float_of_Z 50)])
    /\ (Z.of_nat 3 <= 2 -> rest = []).
Proof.
  apply (top_x_days_spec Demo.seattle_temps
           [("2023-08-23", float_of_Z 60); ("2023-08-24", float_of_Z 75);
            ("2023-08-25", float_of_Z 50)] 2).
  - lia.
  - repeat constructor.
Defined.

(** C3 as stated fails for a negative [n]: [top_x_days(-1)] on three days
    returns two entries, and [min(-1, 3)] is no length. *)
Lemma top_x_days_negative :
  top_x_days Demo.seattle_temps (-1) = Ok [(Demo.D2, Demo.t75); (Demo.D1, Demo.t60)]
  /\ ~ (forall r, top_x_days Demo.seattle_temps (-1) = Ok r ->
                  Z.of_nat (List.length r)
                  = Z.min (-1) (Z.of_nat (List.length Demo.three_days))).
Proof.
  split; [reflexivity|].
  intros H. specialize (H _ eq_refl). simpl in H. discriminate.
Qed.

(** The scenario of the specification: three days at 60, 75 and 50. *)
Example top_two_of_three :
  top_x_days Demo.seattle_temps 2 = Ok [(Demo.D2, Demo.t75); (Demo.D1, Demo.t60)].
Proof. reflexivity. Qed.

Example above_55_of_three :
  extreme_days Demo.seattle_temps (float_of_Z 55)
  = Ok [(Demo.D1, Demo.t60); (Demo.D2, Demo.t75)].
Proof. reflexivity. Qed.

(** ** average_temp *)

(** *** Exact cases of rounding

    A mantissa that already sits where the format wants it is kept as it is,
    and one that has a zero bit too many loses it. *)

Lemma round_exact_no_shift (sx : bool) (q : positive) (e : Z) :
  Z.max (Zpos (digits2_pos q) + e - 53) (-1074) = e -> e <= 971 ->
  binary_round_aux prec emax sx (Zpos q) e loc_Exact = S754_finite sx q e.
Proof.
  intros Hc He.
  assert (Hf : fexp prec emax (Zpos (digits2_pos q) + e) - e = 0).
  { unfold fexp, emin, prec, emax. lia. }
  unfold binary_round_aux, shr_fexp. cbn [Zdigits2 shr_record_of_loc].
  rewrite Hf. cbn [shr shr_m loc_of_shr_record round_nearest_even Zdigits2 shr_record_of_loc].
  rewrite Hf. cbn [shr shr_m].
  replace (e <=? emax - prec) with true; [reflexivity|].
  symmetry. apply Z.leb_le. unfold emax, prec. lia.
Qed.

Lemma round_exact_one_shift (sx : bool) (m : positive) (e : Z) :
  Z.max (Zpos (digits2_pos m) + e - 53) (-1074) = e -> e <= 971 ->
  binary_round_aux prec emax sx (Zpos (xO m)) (e - 1) loc_Exact = S754_finite sx m e.
Proof.
  intros Hc He.
  assert (Hf1 : fexp prec emax (Zpos (digits2_pos (xO m)) + (e - 1)) - (e - 1) = 1).
  { cbn [digits2_pos]. rewrite Pos2Z.inj_succ. unfold fexp, emin, prec, emax. lia. }
  assert (Hf2 : fexp prec emax (Zpos (digits2_pos m) + (e - 1 + 1)) - (e - 1 + 1) = 0).
  { unfold fexp, emin, prec, emax. lia. }
  unfold binary_round_aux, shr_fexp. cbn [Zdigits2 shr_record_of_loc].
  rewrite Hf1.
  cbn [shr iter_pos shr_1 shr_m shr_r shr_s orb loc_of_shr_record round_nearest_even
       Zdigits2 shr_record_of_loc].
  rewrite Hf2. cbn [shr shr_m].
  replace (e - 1 + 1) with e by lia.
  replace (e <=? emax - prec) with true; [reflexivity|].
  symmetry. apply Z.leb_le. unfold emax, prec. lia.
Qed.

(** *** The length of a list as a [float]

    An [int] of at most 53 bits converts without rounding: its binary
    digits, shifted to fill the mantissa. *)

Lemma digits2_pos_lower (p : positive) :
  2 ^ (Zpos (digits2_pos p) - 1) <= Zpos p.
Proof.
  induction p as [p IH|p IH|]; simpl digits2_pos; [| |simpl; lia].
  - rewrite Pos2Z.inj_succ.
    replace (Z.succ (Zpos (digits2_pos p)) - 1) with (Z.succ (Zpos (digits2_pos p) - 1)) by lia.
    rewrite Z.pow_succ_r by lia. lia.
  - rewrite Pos2Z.inj_succ.
    replace (Z.succ (Zpos (digits2_pos p)) - 1) with (Z.succ (Zpos (digits2_pos p) - 1)) by lia.
    rewrite Z.pow_succ_r by lia. lia.
Qed.

Lemma digits2_pos_small (p : positive) :
  Zpos p < 2 ^ 53 -> Zpos (digits2_pos p) <= 53.
Proof.
  intros H. destruct (Z_le_gt_dec (Zpos (digits2_pos p)) 53) as [|Hgt]; [assumption|].
  pose proof (digits2_pos_lower p) as Hlow.
  assert (2 ^ 53 <= 2 ^ (Zpos (digits2_pos p) - 1)) by (apply Z.pow_le_mono_r; lia).
  lia.
Qed.

Lemma digits2_pos_iter_xO (p k : positive) :
  Zpos (digits2_pos (Pos.iter xO p k)) = Zpos (digits2_pos p) + Zpos k.
Proof.
  induction k as [|k IH] using Pos.peano_ind.
  - simpl. lia.
  - rewrite Pos.iter_succ. simpl digits2_pos. rewrite Pos2Z.inj_succ, IH. lia.
Qed.

Lemma float_of_Z_small (z : Z) :
  0 < z < 2 ^ 53 -> exists m e, float_of_Z z = S754_finite false m e.
Proof.
  intros [Hpos Hsmall]. destruct z as [|p|p]; try lia.
  pose proof (digits2_pos_small p Hsmall) as Hd.
  assert (Hd1 : 1 <= Zpos (digits2_pos p)) by lia.
  unfold float_of_Z, binary_normalize, binary_round, shl_align.
  replace (fexp prec emax (Zpos (digits2_pos p) + 0)) with (Zpos (digits2_pos p) - 53)
    by (unfold fexp, emin, prec, emax; lia).
  destruct (Zpos (digits2_pos p) - 53 - 0) as [|k|k] eqn:Hk; try lia.
  - rewrite round_exact_no_shift by lia. eauto.
  - rewrite round_exact_no_shift; [eauto| |lia].
    rewrite digits2_pos_iter_xO. lia.
Qed.

Lemma float_of_int_small (z : Z) :
  0 < z < 2 ^ 53 ->
  exists m e, float_of_int z = Ok (S754_finite false m e) /\ float_of_Z z = S754_finite false m e.
Proof.
  intros H. destruct (float_of_Z_small z H) as (m & e & Hz).
  exists m, e. split; [|exact Hz].
  unfold float_of_int. fold (float_of_Z z). rewrite Hz. reflexivity.
Qed.

(** *** Adding to [float(0)] and dividing by [float(1)] *)

Lemma fadd_zero_l (v : float) :
  fadd (S754_zero false) v = match v with S754_zero _ => S754_zero false | _ => v end.
Proof. destruct v as [[]|[]| |]; reflexivity. Qed.

Lemma float_of_Z_1 : float_of_Z 1 = S754_finite false 4503599627370496 (-52).
Proof. reflexivity. Qed.

Lemma valid_finite (m : positive) (e : Z) :
  valid_binary prec emax (S754_finite false m e) = true ->
  Z.max (Zpos (digits2_pos m) + e - 53) (-1074) = e /\ e <= 971.
Proof.
  simpl. unfold bounded, canonical_mantissa, fexp, emin, prec, emax.
  intros H. apply andb_prop in H. destruct H as [H1 H2].
  apply Z.eqb_eq in H1. apply Z.leb_le in H2. simpl in *. lia.
Qed.

Lemma div_eucl_mul (a b : Z) : b <> 0 -> Z.div_eucl (a * b) b = (a, 0).
Proof.
  intros Hb. pose proof (Z.div_mul a b Hb) as Hd. pose proof (Z.mod_mul a b Hb) as Hm.
  unfold Z.div, Z.modulo in *. destruct (Z.div_eucl (a * b) b) as [q r].
  simpl in *. congruence.
Qed.

Lemma fdiv_one (v : float) :
  valid_binary prec emax v = true -> fdiv v (float_of_Z 1) = v.
Proof.
  rewrite float_of_Z_1. destruct v as [s|s| |s m e]; intros Hv.
  - destruct s; reflexivity.
  - destruct s; reflexivity.
  - reflexivity.
  - assert (Hv' : valid_binary prec emax (S754_finite false m e) = true) by exact Hv.
    apply valid_finite in Hv'. destruct Hv' as [Hc He].
    unfold fdiv, SFdiv, SFdiv_core_binary.
    replace (xorb s false) with s by (destruct s; reflexivity).
    change (Zdigits2 (Zpos 4503599627370496)) with 53.
    cbn [Zdigits2].
    destruct (Z.eq_dec e (-1074)) as [E|E].
    + replace (Z.min (fexp prec emax (Zpos (digits2_pos m) + e - (53 + -52))) (e - -52))
        with e by (unfold fexp, emin, prec, emax; lia).
      replace (e - -52 - e) with 52 by lia.
      rewrite Z.shiftl_mul_pow2 by lia.
      change (2 ^ 52) with 4503599627370496.
      rewrite div_eucl_mul by discriminate.
      change (new_location 4503599627370496 0) with loc_Exact.
      apply round_exact_no_shift; assumption.
    + replace (Z.min (fexp prec emax (Zpos (digits2_pos m) + e - (53 + -52))) (e - -52))
        with (e - 1) by (unfold fexp, emin, prec, emax; lia).
      replace (e - -52 - (e - 1)) with 53 by lia.
      rewrite Z.shiftl_mul_pow2 by lia.
      change (2 ^ 53) with (2 * 4503599627370496).
      rewrite Z.mul_assoc.
      rewrite div_eucl_mul by discriminate.
      change (new_location 4503599627370496 0) with loc_Exact.
      replace (Zpos m * 2) with (Zpos (xO m)) by lia.
      apply round_exact_one_shift; assumption.
Qed.

(** *** The sum and the mean *)

Lemma py_sum_floats (total : float) (temps : list float) :
  py_sum (NFloat total) (map PFloat temps) = Ok (NFloat (fold_left fadd temps total)).
Proof.
  revert total. induction temps as [|t temps IH]; intros total; simpl; [reflexivity|].
  apply IH.
Qed.

Lemma map_snd_entries (days : list day) :
  map snd (entries days) = map PFloat (map snd days).
Proof. unfold entries. rewrite !map_map. reflexivity. Qed.

Lemma py_sum_entries (days : list day) :
  days <> [] ->
  py_sum (NInt 0) (map snd (entries days)) = Ok (NFloat (fsum (map snd days))).
Proof.
  rewrite map_snd_entries.
  destruct days as [|d days]; [congruence|]. intros _.
  cbn [map py_sum to_number].
  change (num_add (NInt 0) (NFloat (snd d)))
    with (Ok (NFloat (fadd (S754_zero false) (snd d)))).
  cbn [rbind]. apply py_sum_floats.
Qed.

Lemma average_temp_entries (self : HistoricalTemps) (days : list day) :
  days <> [] ->
  Z.of_nat (List.length days) < 2 ^ 53 ->
  average_temp (loaded self days)
  = Ok (fdiv (fsum (map snd days)) (float_of_Z (Z.of_nat (List.length days)))).
Proof.
  intros Hne Hlen.
  unfold average_temp, loaded. cbn [_temp_list set_temp_list].
  rewrite (py_sum_entries days Hne). cbn [rbind].
  unfold entries. rewrite length_map.
  assert (Hpos : 0 < Z.of_nat (List.length days) < 2 ^ 53).
  { destruct days; [congruence|]. simpl List.length in *. lia. }
  destruct (float_of_int_small _ Hpos) as (m & e & Hf & Hz).
  unfold num_truediv_int. rewrite Hf, Hz. reflexivity.
Qed.

Lemma sum_floats_entries (LONG_MAX : Z) (f_result c : float) (temps : list float) :
  sum_floats LONG_MAX f_result c (map PFloat temps)
  = Ok (NFloat (fsum_steps f_result c temps)).
Proof.
  revert f_result c. induction temps as [|x temps IH]; intros f_result c; [reflexivity|].
  cbn [map sum_floats fsum_steps].
  destruct (compensated_add f_result c x) as [t c']. apply IH.
Qed.

Lemma py_sum_compensated_entries (LONG_MAX : Z) (days : list day) :
  py_sum_compensated LONG_MAX (map snd (entries days))
  = Ok (match days with
        | [] => NInt 0
        | _ :: _ => NFloat (fsum_compensated (map snd days))
        end).
Proof.
  rewrite map_snd_entries. destruct days as [|d days]; [reflexivity|].
  unfold py_sum_compensated. cbn [map sum_ints int_value fsum_compensated].
  change (float_of_int 0) with (Ok (S754_zero false)). cbn [rbind].
  apply sum_floats_entries.
Qed.

Lemma average_temp_compensated_entries
      (LONG_MAX : Z) (self : HistoricalTemps) (days : list day) :
  days <> [] ->
  Z.of_nat (List.length days) < 2 ^ 53 ->
  average_temp_compensated LONG_MAX (loaded self days)
  = Ok (fdiv (fsum_compensated (map snd days))
             (float_of_Z (Z.of_nat (List.length days)))).
Proof.
  intros Hne Hlen.
  unfold average_temp_compensated, loaded. cbn [_temp_list set_temp_list].
  rewrite py_sum_compensated_entries.
  assert (Hpos : 0 < Z.of_nat (List.length days) < 2 ^ 53).
  { destruct days; [congruence|]. simpl List.length in *. lia. }
  destruct days as [|d days]; [congruence|]. cbn [rbind].
  unfold entries. rewrite length_map.
  destruct (float_of_int_small _ Hpos) as (m & e & Hf & Hz).
  unfold num_truediv_int. rewrite Hf, Hz. reflexivity.
Qed.

(** C5, as the code has it.  For every non-empty payload of dated
    temperatures, [average_temp()] returns the [float] quotient of
    [sum(temps)] by the number of entries, where [sum(temps)] is the [float]
    sum of all the temperatures in the order of the payload, none left out:
    with each addition rounded up to CPython 3.11 ([fsum]), and with the
    rounding errors compensated from CPython 3.12 on ([fsum_compensated],
    whatever the size of a C [long]).  For a payload of one value [V] that is
    [V] itself on both (a zero comes back as +0.0). *)
Theorem average_temp_spec (self : HistoricalTemps) (days : list day) (LONG_MAX : Z) :
  days <> [] ->
  Z.of_nat (List.length days) < 2 ^ 53 ->
  average_temp (loaded self days)
  = Ok (fdiv (fsum (map snd days)) (float_of_Z (Z.of_nat (List.length days))))
  /\ average_temp_compensated LONG_MAX (loaded self days)
     = Ok (fdiv (fsum_compensated (map snd days))
                (float_of_Z (Z.of_nat (List.length days))))
  /\ (forall date v,
         days = [(date, v)] ->
         valid_binary prec emax v = true ->
         average_temp (loaded self days)
         = Ok (match v with S754_zero _ => S754_zero false | _ => v end)
         /\ average_temp_compensated LONG_MAX (loaded self days)
            = Ok (match v with S754_zero _ => S754_zero false | _ => v end)).
Proof.
  intros Hne Hlen.
  split; [apply average_temp_entries; assumption|].
  split; [apply average_temp_compensated_entries; assumption|].
  intros date v -> Hv.
  rewrite average_temp_entries, average_temp_compensated_entries by assumption.
  cbn [map snd List.length fsum fold_left fsum_compensated fsum_steps
       Z.of_nat Pos.of_succ_nat].
  change (add_compensation (fadd (S754_zero false) v) (S754_zero false))
    with (fadd (S754_zero false) v).
  rewrite fadd_zero_l.
  assert (E : fdiv (match v with S754_zero _ => S754_zero false | _ => v end) (float_of_Z 1)
              = match v with S754_zero _ => S754_zero false | _ => v end).
  { destruct v as [s|s| |s m e]; apply fdiv_one; (exact Hv || reflexivity). }
  rewrite E. split; reflexivity.
Qed.

Lemma average_temp_spec_witness :
  (average_temp
     (loaded Demo.seattle_temps
        [("2023-08-23", float_of_Z 60); ("2023-08-24", float_of_Z 75);
         ("2023-08-25", float_of_Z 50)])
   = Ok (fdiv (fsum [float_of_Z 60; float_of_Z 75; float_of_Z 50]) (float_of_Z 3))
   /\ average_temp_compensated (2 ^ 63 - 1)
        (loaded Demo.seattle_temps
           [("2023-08-23", float_of_Z 60); ("2023-08-24", float_of_Z 75);
            ("2023-08-25", float_of_Z 50)])
      = Ok (fdiv (fsum_compensated [float_of_Z 60; float_of_Z 75; float_of_Z 50])
                 (float_of_Z 3)))
  /\ average_temp (loaded Demo.seattle_temps [("2023-08-23", f0_1)]) = Ok f0_1
  /\ average_temp_compensated (2 ^ 63 - 1)
       (loaded Demo.seattle_temps [("2023-08-23", f0_1)]) = Ok f0_1.
Proof.
  split.
  - destruct (average_temp_spec Demo.seattle_temps
                [("2023-08-23", float_of_Z 60); ("2023-08-24", float_of_Z 75);
                 ("2023-08-25", float_of_Z 50)] (2 ^ 63 - 1)
                ltac:(discriminate) eq_refl) as (H1 & H2 & _).
    split; assumption.
  - destruct (average_temp_spec Demo.seattle_temps [("2023-08-23", f0_1)] (2 ^ 63 - 1)
                ltac:(discriminate) eq_refl) as (_ & _ & H).
    exact (H "2023-08-23" f0_1 eq_refl eq_refl).
Defined.

(** The scenario of the specification: the mean of 60, 75 and 50 is
    61.666666666666664, that is 8678811781911893 * 2^-47. *)
Example average_of_three :
  average_temp Demo.seattle_temps = Ok (S754_finite false 8678811781911893 (-47)).
Proof. reflexivity. Qed.

(** Where the two sums part: ten days at 0.1 degrees have the mean
    0.09999999999999999 up to CPython 3.11 and 0.1 from 3.12 on. *)
Example average_of_ten_days (LONG_MAX : Z) :
  let days := map (fun date => (date, f0_1))
                  ["d0"; "d1"; "d2"; "d3"; "d4"; "d5"; "d6"; "d7"; "d8"; "d9"] in
  average_temp (loaded Demo.seattle_temps days)
  = Ok (S754_finite false 7205759403792793 (-56))
  /\ average_temp_compensated LONG_MAX (loaded Demo.seattle_temps days) = Ok f0_1.
Proof. split; reflexivity. Qed.

(** The days at 16.9, 30.7 and 22.6 degrees have the mean
    23.399999999999995 up to CPython 3.11 and 23.400000000000002 from 3.12
    on; the nearest [float] to 23.4 lies between the two. *)
Example average_of_uneven_days (LONG_MAX : Z) :
  let days := [("2023-08-23", Demo.dec 169 1); ("2023-08-24", Demo.dec 307 1);
               ("2023-08-25", Demo.dec 226 1)] in
  average_temp (loaded Demo.seattle_temps days)
  = Ok (S754_finite false 6586514455029349 (-48))
  /\ average_temp_compensated LONG_MAX (loaded Demo.seattle_temps days)
     = Ok (S754_finite false 6586514455029351 (-48))
  /\ Demo.dec 234 1 = S754_finite false 6586514455029350 (-48).
Proof. repeat split. Qed.

(** C5 as stated fails on three days at 0.1 degrees: the mean that comes
    out is 0.10000000000000002, the [float] after 0.1, with the sum of
    CPython up to 3.11 as with the one from 3.12 on. *)
Lemma average_of_equal_temps_differs :
  f0_1 = S754_finite false 7205759403792794 (-56)
  /\ average_temp (loaded Demo.seattle_temps
                     [("2023-08-23", f0_1); ("2023-08-24", f0_1); ("2023-08-25", f0_1)])
     = Ok (S754_finite false 7205759403792795 (-56))
  /\ average_temp (loaded Demo.seattle_temps
                     [("2023-08-23", f0_1); ("2023-08-24", f0_1); ("2023-08-25", f0_1)])
     <> Ok f0_1
  /\ (forall LONG_MAX,
         average_temp_compensated LONG_MAX
           (loaded Demo.seattle_temps
              [("2023-08-23", f0_1); ("2023-08-24", f0_1); ("2023-08-25", f0_1)])
         = Ok (S754_finite false 7205759403792795 (-56))).
Proof.
  split; [reflexivity|]. split; [reflexivity|]. split; [discriminate|].
  intros LONG_MAX. reflexivity.
Qed.

(** ** The class and the interactive functions *)

Section ProgramProofs.

Context {env : Type} {services : Outside env}.

(** *** Loading *)

(** A load that raises leaves the object as it was. *)
Lemma load_temps_raise (self : HistoricalTemps) (e : env) (cause : exn) (s' : obj) :
  _load_temps (self, e) = (Raise cause, s') -> fst s' = self.
Proof.
  unfold _load_temps. run.
  destruct (requests_get _ _ e) as [[json_data|x] e1]; simpl.
  - destruct (_convert_json_to_list json_data); simpl;
      intros H; inversion H; reflexivity.
  - intros H; inversion H; reflexivity.
Qed.

(** A load that returns has replaced the payload and nothing else. *)
Lemma load_temps_ok (self : HistoricalTemps) (e : env) (s' : obj) :
  _load_temps (self, e) = (Ok tt, s') ->
  exists temp_list, fst s' = set_temp_list self (Some temp_list).
Proof.
  unfold _load_temps. run.
  destruct (requests_get _ _ e) as [[json_data|x] e1]; simpl.
  - destruct (_convert_json_to_list json_data) as [l|]; simpl;
      intros H; inversion H. exists l. reflexivity.
  - intros H; inversion H.
Qed.

Lemma set_start_back (self : HistoricalTemps) (v : string) :
  set_start (set_start self v) (_start self) = self.
Proof. destruct self; reflexivity. Qed.

Lemma set_end_back (self : HistoricalTemps) (v : string) :
  set_end (set_end self v) (_end self) = self.
Proof. destruct self; reflexivity. Qed.

Lemma start_setter_fail (self : HistoricalTemps) (value : string) (e : env)
      (cause : exn) (s' : obj) :
  _load_temps (set_start self value, e) = (Raise cause, s') ->
  start_setter value (self, e)
  = (Raise (Exn LookupError
              ("Can't load data for start date " ++ value ++ ": " ++ str_exn cause)
              (Some cause)),
     (self, snd s')).
Proof.
  intros H. pose proof (load_temps_raise _ _ _ _ H) as Hs.
  unfold start_setter. run. rewrite H, isinstance_Exception.
  simpl. rewrite Hs. simpl. rewrite set_start_back. reflexivity.
Qed.

Lemma end_setter_fail (self : HistoricalTemps) (value : string) (e : env)
      (cause : exn) (s' : obj) :
  _load_temps (set_end self value, e) = (Raise cause, s') ->
  end_setter value (self, e)
  = (Raise (Exn LookupError
              ("Can't load data for end date " ++ value ++ ": " ++ str_exn cause)
              (Some cause)),
     (self, snd s')).
Proof.
  intros H. pose proof (load_temps_raise _ _ _ _ H) as Hs.
  unfold end_setter. run. rewrite H, isinstance_Exception.
  simpl. rewrite Hs. simpl. rewrite set_end_back. reflexivity.
Qed.

Lemma start_setter_ok (self : HistoricalTemps) (value : string) (e : env) (s' : obj) :
  _load_temps (set_start self value, e) = (Ok tt, s') ->
  start_setter value (self, e) = (Ok tt, s').
Proof.
  intros H. unfold start_setter. run. rewrite H. reflexivity.
Qed.

(** C1. When the reload that an assignment to [start] or to [end]
    triggers fails, the assignment raises a [LookupError] (the error the
    specification calls DateRangeError) whose message ends with the text
    of the cause and whose context is the cause, and the dataset is the
    one before the assignment: the endpoint has its old value again, the
    other endpoint and the payload were never touched. *)
Theorem setter_failure_rolls_back (self : HistoricalTemps) (value : string) (e : env) :
  (forall cause s',
      _load_temps (set_start self value, e) = (Raise cause, s') ->
      start_setter value (self, e)
      = (Raise (Exn LookupError
                  ("Can't load data for start date " ++ value ++ ": " ++ str_exn cause)
                  (Some cause)),
         (self, snd s')))
  /\ (forall cause s',
         _load_temps (set_end self value, e) = (Raise cause, s') ->
         end_setter value (self, e)
         = (Raise (Exn LookupError
                     ("Can't load data for end date " ++ value ++ ": " ++ str_exn cause)
                     (Some cause)),
            (self, snd s'))).
Proof.
  split; intros cause s' H.
  - apply start_setter_fail. exact H.
  - apply end_setter_fail. exact H.
Qed.

(** *** Looking a zip code up *)

(** C7. Whenever the geocoder answers, [zip_to_loc_info] returns and does
    not raise; for a zip code that yields no location (an empty row) it
    returns [None] for the latitude, the longitude and the name, and
    otherwise what the row holds. *)
Theorem zip_to_loc_info_no_location (zip_code : string) (e e' : env) (loc : location) :
  query_postal_code "us" zip_code e = (Ok loc, e') ->
  exists found,
    zip_to_loc_info zip_code e = (Ok found, e')
    /\ (loc_empty loc = true -> found = (PNone, PNone, PNone))
    /\ (loc_empty loc = false ->
        found = (loc_latitude loc, loc_longitude loc, loc_place_name loc)).
Proof.
  intros H. unfold zip_to_loc_info. run. rewrite H.
  destruct (loc_empty loc); eexists; repeat split; try reflexivity; discriminate.
Qed.

(** C2, as the code has it.  When the geocoder resolves the zip code to
    a row with a [float] latitude and longitude: if one of them is NaN the
    construction raises [LookupError] (the specification's
    LocationNotFoundError) before anything is fetched; if neither is, the
    construction goes on to the first load of the payload and ends as that
    load does: it returns the loaded dataset when the load returns, and
    raises what the load raises. *)
Theorem construction_by_coordinates
        (zip_code start end_ : string) (e e1 : env) (loc : location) (lat lon : float) :
  query_postal_code "us" zip_code e = (Ok loc, e1) ->
  loc_empty loc = false ->
  loc_latitude loc = PFloat lat ->
  loc_longitude loc = PFloat lon ->
  let self := {| _zip_code := zip_code; _start := start; _end := end_;
                 _lat := PFloat lat; _lon := PFloat lon;
                 _loc_name := loc_place_name loc; _temp_list := None |} in
  (float_is_nan lat || float_is_nan lon = true ->
   __init__ zip_code start end_ e
   = (Raise (Exn LookupError "Invalid zip code: Location not found" None), e1))
  /\ (float_is_nan lat || float_is_nan lon = false ->
      (forall s', _load_temps (self, e1) = (Ok tt, s') ->
                  __init__ zip_code start end_ e = (Ok (fst s'), snd s'))
      /\ (forall cause s', _load_temps (self, e1) = (Raise cause, s') ->
                           __init__ zip_code start end_ e = (Raise cause, snd s'))).
Proof.
  intros Hq Hne Hlat Hlon self.
  assert (Hinit : __init__ zip_code start end_ e
                  = if float_is_nan lat || float_is_nan lon
                    then (Raise (Exn LookupError "Invalid zip code: Location not found" None), e1)
                    else on_object self _load_temps e1).
  { unfold __init__, zip_to_loc_info. run.
    rewrite Hq, Hne, Hlat, Hlon. simpl.
    destruct (float_is_nan lat); simpl; [reflexivity|].
    destruct (float_is_nan lon); reflexivity. }
  split; intros Hnan; rewrite Hinit, Hnan; [reflexivity|].
  unfold on_object. split.
  - intros s' H. rewrite H. reflexivity.
  - intros cause s' H. rewrite H. reflexivity.
Qed.

(** *** Parsing the archive's answer *)

Lemma zip_length {A B : Type} (l1 : list A) (l2 : list B) :
  List.length (zip l1 l2) = Nat.min (List.length l1) (List.length l2).
Proof.
  revert l2. induction l1 as [|a l1 IH]; intros [|b l2]; simpl; auto.
Qed.

Lemma zip_nth_error {A B : Type} (l1 : list A) (l2 : list B) (i : nat) :
  (i < Nat.min (List.length l1) (List.length l2))%nat ->
  exists a b, nth_error l1 i = Some a /\ nth_error l2 i = Some b
              /\ nth_error (zip l1 l2) i = Some (a, b).
Proof.
  revert l2 i. induction l1 as [|a l1 IH]; intros [|b l2] i; simpl; try lia.
  destruct i as [|i]; simpl; [eauto|]. intros H. apply IH. lia.
Qed.

(** C8. For an answer of the archive that parses to an object whose
    ["daily"] member holds a list of dates under ["time"] and a list of
    temperatures under ["temperature_2m_max"], the parser returns, without
    raising whatever the two lengths are, the dates paired with the
    temperatures position by position, up to the end of the shorter list. *)
Theorem convert_json_pairs_up_to_shorter
        (data : string) (top daily_ : list (string * pyval)) (dates temps : list pyval) :
  json_loads data = Ok (PDict top) ->
  dict_get top "daily" = Some (PDict daily_) ->
  dict_get daily_ "time" = Some (PList dates) ->
  dict_get daily_ "temperature_2m_max" = Some (PList temps) ->
  _convert_json_to_list data = Ok (zip dates temps)
  /\ List.length (zip dates temps) = Nat.min (List.length dates) (List.length temps)
  /\ (forall i, (i < Nat.min (List.length dates) (List.length temps))%nat ->
                exists d t, nth_error dates i = Some d /\ nth_error temps i = Some t
                            /\ nth_error (zip dates temps) i = Some (d, t)).
Proof.
  intros Hj Hd Ht Hm. split; [|split].
  - unfold _convert_json_to_list. rewrite Hj. simpl. rewrite Hd. simpl.
    rewrite Ht. simpl. rewrite Hm. reflexivity.
  - apply zip_length.
  - apply zip_nth_error.
Qed.


(** *** Creating a dataset from the menu *)

Lemma create_dataset_lookup_error
      (w : world) (zip_code : string) (rest : list string) (cause : exn) (e' : env) :
  w_stdin w = zip_code :: rest ->
  __init__ zip_code default_start default_end (w_env w) = (Raise cause, e') ->
  isinstance cause LookupError = true ->
  create_dataset w
  = (Ok None,
     {| w_env := e'; w_stdin := rest;
        w_stdout := w_stdout w
                    ++ ["Please enter a zip code: ";
                        "Error: The entered zip code is invalid. Please try again." ++ newline] |}).
Proof.
  intros Hin Hinit Hcls. destruct w as [e stdin out]. simpl in *. subst stdin.
  unfold create_dataset, input, write, print, outside. run.
  rewrite Hinit. simpl. rewrite Hcls. simpl. rewrite <- app_assoc. reflexivity.
Qed.

Lemma print_menu_frame (d1 d2 : option HistoricalTemps) (w : world) :
  exists out,
    print_menu d1 d2 w = (Ok tt, {| w_env := w_env w; w_stdin := w_stdin w; w_stdout := out |}).
Proof.
  unfold print_menu, print, write. run.
  destruct d1, d2; simpl; eexists; reflexivity.
Qed.

(** C9. When the construction of the dataset raises a [LookupError] (an
    invalid zip code), [create_dataset] returns [None]; so a turn of the
    menu in which option 1, or option 2, is chosen and such a zip code is
    entered leaves [None] in the chosen slot, whatever dataset the slot held
    before, leaves the other slot alone, and the loop goes on from there. *)
Theorem invalid_zip_empties_slot
        (sl : slots) (w : world) (choice zip_code : string) (rest : list string)
        (cause : exn) (e' : env) :
  w_stdin w = choice :: zip_code :: rest ->
  __init__ zip_code default_start default_end (w_env w) = (Raise cause, e') ->
  isinstance cause LookupError = true ->
  (forall w0, w_stdin w0 = zip_code :: rest -> w_env w0 = w_env w ->
              exists w1, create_dataset w0 = (Ok None, w1))
  /\ (py_int choice = Ok 1 ->
      exists w',
        menu_body sl w
        = (Ok (Continue, {| dataset_one := None; dataset_two := dataset_two sl |}), w')
        /\ w_stdin w' = rest
        /\ forall fuel,
            menu_loop (S fuel) sl w
            = menu_loop fuel {| dataset_one := None; dataset_two := dataset_two sl |} w')
  /\ (py_int choice = Ok 2 ->
      exists w',
        menu_body sl w
        = (Ok (Continue, {| dataset_one := dataset_one sl; dataset_two := None |}), w')
        /\ w_stdin w' = rest
        /\ forall fuel,
            menu_loop (S fuel) sl w
            = menu_loop fuel {| dataset_one := dataset_one sl; dataset_two := None |} w').
Proof.
  intros Hin Hinit Hcls. split; [|split].
  - intros w0 Hin0 Henv. eexists.
    apply (create_dataset_lookup_error w0 zip_code rest cause e'); auto.
    rewrite Henv. exact Hinit.
  - intros Hint.
    destruct (print_menu_frame (dataset_one sl) (dataset_two sl) w) as [out Hpm].
    assert (Hbody : menu_body sl w
                    = (Ok (Continue, {| dataset_one := None; dataset_two := dataset_two sl |}),
                       {| w_env := e'; w_stdin := rest;
                          w_stdout := (out ++ ["What is your choice?"])
                                      ++ ["Please enter a zip code: ";
                                          "Error: The entered zip code is invalid. Please try again."
                                            ++ newline] |})).
    { unfold menu_body. unfold bind at 1. rewrite Hpm.
      unfold input, write. run. rewrite Hin. simpl. rewrite Hint. simpl.
      rewrite (create_dataset_lookup_error _ zip_code rest cause e');
        [reflexivity|reflexivity|exact Hinit|exact Hcls]. }
    eexists. split; [exact Hbody|]. split; [reflexivity|].
    intros fuel. simpl. rewrite Hbody. reflexivity.
  - intros Hint.
    destruct (print_menu_frame (dataset_one sl) (dataset_two sl) w) as [out Hpm].
    assert (Hbody : menu_body sl w
                    = (Ok (Continue, {| dataset_one := dataset_one sl; dataset_two := None |}),
                       {| w_env := e'; w_stdin := rest;
                          w_stdout := (out ++ ["What is your choice?"])
                                      ++ ["Please enter a zip code: ";
                                          "Error: The entered zip code is invalid. Please try again."
                                            ++ newline] |})).
    { unfold menu_body. unfold bind at 1. rewrite Hpm.
      unfold input, write. run. rewrite Hin. simpl. rewrite Hint. simpl.
      rewrite (create_dataset_lookup_error _ zip_code rest cause e');
        [reflexivity|reflexivity|exact Hinit|exact Hcls]. }
    eexists. split; [exact Hbody|]. split; [reflexivity|].
    intros fuel. simpl. rewrite Hbody. reflexivity.
Qed.

(** *** Changing the dates *)

(** C10. In the dialog that changes the dates of a loaded dataset: when
    the assignment of the new start date fails, the dialog reports it and
    returns, the dataset is untouched, the end date is neither prompted for
    nor read; when the start is assigned and the assignment of the new end
    date fails, the dataset keeps the new start and the payload loaded for
    it, with the end date it had before. *)
Theorem change_dates_failures
        (dataset : HistoricalTemps) (w : world) (new_start : string) (rest : list string) :
  is_data_loaded dataset = true ->
  w_stdin w = new_start :: rest ->
  (forall cause s1,
      _load_temps (set_start dataset new_start, w_env w) = (Raise cause, s1) ->
      change_dates (dataset, w)
      = (Ok tt,
         (dataset,
          {| w_env := snd s1; w_stdin := rest;
             w_stdout := w_stdout w
                         ++ ["Enter the new start date (YYYY-MM-DD): ";
                             ("Failed to change the start date: "
                                ++ "Can't load data for start date " ++ new_start ++ ": "
                                ++ str_exn cause) ++ newline] |})))
  /\ (forall d1 e1 new_end rest' cause s2,
         rest = new_end :: rest' ->
         _load_temps (set_start dataset new_start, w_env w) = (Ok tt, (d1, e1)) ->
         _load_temps (set_end d1 new_end, e1) = (Raise cause, s2) ->
         change_dates (dataset, w)
         = (Ok tt,
            (d1,
             {| w_env := snd s2; w_stdin := rest';
                w_stdout := w_stdout w
                            ++ ["Enter the new start date (YYYY-MM-DD): ";
                                "Enter the new end date (YYYY-MM-DD): ";
                                ("Failed to change the end date: "
                                   ++ "Can't load data for end date " ++ new_end ++ ": "
                                   ++ str_exn cause) ++ newline] |}))
         /\ _start d1 = new_start
         /\ _end d1 = _end dataset
         /\ exists temp_list, _temp_list d1 = Some temp_list).
Proof.
  intros Hloaded Hin. destruct w as [e stdin out]. simpl in *. subst stdin.
  split.
  - intros cause s1 Hload.
    unfold change_dates, method, input, write, print. run. rewrite Hloaded. simpl.
    rewrite (start_setter_fail _ _ _ _ _ Hload). simpl.
    rewrite <- app_assoc. reflexivity.
  - intros d1 e1 new_end rest' cause s2 -> Hload1 Hload2.
    destruct (load_temps_ok _ _ _ Hload1) as [temp_list Hd1]. simpl in Hd1.
    split; [|subst d1; destruct dataset; simpl; eauto].
    unfold change_dates, method, input, write, print. run. rewrite Hloaded. simpl.
    rewrite (start_setter_ok _ _ _ _ Hload1). simpl.
    rewrite (end_setter_fail _ _ _ _ _ Hload2). simpl.
    rewrite <- !app_assoc. reflexivity.
Qed.

(** *** The menu loop ends

    No function of the program puts a line back on the input, and a turn of
    the menu that does not raise reads one. *)

Lemma ng_ret {St A} (lines : St -> nat) (a : A) : no_growth lines (ret a).
Proof. intros s r s' H. inversion H. lia. Qed.

Lemma ng_raise {St A} (lines : St -> nat) (e : exn) : no_growth lines (raise (A:=A) e).
Proof. intros s r s' H. inversion H. lia. Qed.

Lemma ng_lift {St A} (lines : St -> nat) (x : result A) : no_growth lines (lift x).
Proof. intros s r s' H. inversion H. lia. Qed.

Lemma ng_bind {St A B} (lines : St -> nat) (m : M St A) (k : A -> M St B) :
  no_growth lines m -> (forall a, no_growth lines (k a)) -> no_growth lines (bind m k).
Proof.
  intros Hm Hk s r s'. unfold bind. destruct (m s) as [[a|e] s1] eqn:E; intros H.
  - apply Hm in E. apply Hk in H. lia.
  - inversion H; subst. apply Hm in E. lia.
Qed.

Lemma ng_try {St A} (lines : St -> nat) (m : M St A) (c : exn_class) (h : exn -> M St A) :
  no_growth lines m -> (forall e, no_growth lines (h e)) -> no_growth lines (try_except m c h).
Proof.
  intros Hm Hh s r s'. unfold try_except. destruct (m s) as [[a|e] s1] eqn:E; intros H.
  - inversion H; subst. apply Hm in E. lia.
  - apply Hm in E. destruct (isinstance e c).
    + apply Hh in H. lia.
    + inversion H; subst. lia.
Qed.

Lemma ng_for_each {St A} (lines : St -> nat) (items : list A) (body : A -> M St unit) :
  (forall x, no_growth lines (body x)) -> no_growth lines (for_each items body).
Proof.
  intros Hb. induction items as [|x items IH]; simpl.
  - apply ng_ret.
  - apply ng_bind; auto.
Qed.

Lemma ng_write (s : string) : no_growth (@lines_left env) (write s).
Proof. intros w r w' H. inversion H. unfold lines_left. simpl. lia. Qed.

Lemma ng_print (s : string) : no_growth (@lines_left env) (print s).
Proof. apply ng_write. Qed.

Lemma ng_input (prompt : string) : no_growth (@lines_left env) (input prompt).
Proof.
  intros w r w'. unfold input, write, bind, lines_left. simpl.
  destruct (w_stdin w) as [|line rest]; intros H; inversion H; simpl; lia.
Qed.

Lemma ng_outside {A} (m : M env A) : no_growth (@lines_left env) (outside m).
Proof.
  intros w r w'. unfold outside, zoom, lines_left. destruct (m (w_env w)); intros H.
  inversion H. simpl. lia.
Qed.

Lemma ng_beside {A} (m : M world A) : no_growth (@lines_left env) m -> no_growth (@lines_left_beside env) (beside m).
Proof.
  intros Hm s r s'. unfold beside, zoom, lines_left_beside.
  destruct (m (snd s)) as [x w1] eqn:E. intros H. inversion H. simpl.
  apply Hm in E. exact E.
Qed.

Lemma ng_method {A} (m : M obj A) : no_growth (@lines_left_beside env) (method m).
Proof.
  intros s r s'. unfold method, zoom, lines_left_beside, lines_left.
  destruct (m _) as [x s1]. intros H. inversion H. simpl. lia.
Qed.

Lemma ng_self : no_growth (@lines_left_beside env) (self_ (O:=HistoricalTemps)).
Proof. intros s r s' H. inversion H. lia. Qed.

Lemma ng_on_object {A} (d : HistoricalTemps) (m : M (HistoricalTemps * world) A) :
  no_growth (@lines_left_beside env) m -> no_growth (@lines_left env) (on_object d m).
Proof.
  intros Hm w r w'. unfold on_object. destruct (m (d, w)) as [[a|e] s1] eqn:E;
    intros H; inversion H; subst; apply Hm in E; exact E.
Qed.

Ltac ng :=
  repeat first
    [ apply ng_ret | apply ng_raise | apply ng_lift | apply ng_print | apply ng_input
    | apply ng_outside | apply ng_method | apply ng_self | apply ng_write
    | apply ng_bind | apply ng_try | apply ng_for_each | apply ng_beside
    | apply ng_on_object
    | match goal with
      | |- forall _, _ => intro
      | |- no_growth _ (if ?b then _ else _) => destruct b
      | |- no_growth _ (match ?x with _ => _ end) => destruct x
      end ].

Lemma ng_create_dataset : no_growth (@lines_left env) create_dataset.
Proof. unfold create_dataset. ng. Qed.

Lemma ng_print_extreme_days d : no_growth (@lines_left env) (print_extreme_days d).
Proof. unfold print_extreme_days. ng. Qed.

Lemma ng_print_top_five_days d : no_growth (@lines_left env) (print_top_five_days d).
Proof. unfold print_top_five_days. ng. Qed.

Lemma ng_compare_average_temps d1 d2 : no_growth (@lines_left env) (compare_average_temps d1 d2).
Proof. unfold compare_average_temps. ng. Qed.

Lemma ng_change_dates : no_growth (@lines_left_beside env) change_dates.
Proof. unfold change_dates. ng. Qed.

Lemma ng_print_menu d1 d2 : no_growth (@lines_left env) (print_menu d1 d2).
Proof. unfold print_menu. ng. Qed.

Ltac ng_menu :=
  repeat first
    [ apply ng_create_dataset | apply ng_print_extreme_days
    | apply ng_print_top_five_days | apply ng_compare_average_temps
    | apply ng_change_dates | apply ng_print_menu | progress ng ].

Lemma bind_ok_inv {St A B} (m : M St A) (k : A -> M St B) (s s' : St) (b : B) :
  bind m k s = (Ok b, s') -> exists a s1, m s = (Ok a, s1) /\ k a s1 = (Ok b, s').
Proof.
  unfold bind. destruct (m s) as [[a|e] s1]; intros H; [eauto|discriminate].
Qed.

(** A turn of the menu that does not raise has read a line. *)
Lemma menu_body_reads (sl : slots) (w w' : world) (x : loop_ctl * slots) :
  menu_body sl w = (Ok x, w') -> (lines_left w' < lines_left w)%nat.
Proof.
  unfold menu_body. intros H.
  apply bind_ok_inv in H. destruct H as (? & w1 & Hmenu & H).
  apply bind_ok_inv in H. destruct H as (chosen & w2 & Hread & H).
  apply ng_print_menu in Hmenu.
  assert (Hlt : (lines_left w2 < lines_left w1)%nat).
  { revert Hread. unfold try_except, input, write, bind, lift, ret, print, lines_left. simpl.
    destruct (w_stdin w1) as [|line rest]; simpl; [discriminate|].
    destruct (py_int line) as [n|e]; simpl.
    - intros E. inversion E. simpl. lia.
    - destruct (isinstance e ValueError); intros E; inversion E. simpl. lia. }
  match type of H with
  | ?m _ = _ => assert (Hng : no_growth (@lines_left env) m) by ng_menu
  end.
  apply Hng in H. lia.
Qed.

(** [menu()] ends on every finite input: one turn of fuel for each line
    and one more are enough. *)
Lemma menu_loop_terminates (fuel : nat) (sl : slots) (w : world) :
  (lines_left w < fuel)%nat -> exists r, menu_loop fuel sl w = Some r.
Proof.
  revert sl w. induction fuel as [|fuel IH]; intros sl w Hlt; [lia|].
  simpl. destruct (menu_body sl w) as [[[[|] sl']|e] w'] eqn:E.
  - apply menu_body_reads in E. apply IH. lia.
  - eauto.
  - eauto.
Qed.


Lemma main_terminates (fuel : nat) (w : world) :
  (lines_left w <= fuel)%nat -> exists r, main fuel w = Some r.
Proof.
  intros Hle. unfold main, input, write, print, bind, lines_left in *. simpl.
  destruct (w_stdin w) as [|name rest] eqn:E; simpl; [eauto|].
  apply menu_loop_terminates. unfold lines_left. simpl in *. lia.
Qed.

End ProgramProofs.

(** ** The theorems at work in the concrete world *)

Lemma setter_failure_rolls_back_witness :
  start_setter "1900-01-01" (Demo.seattle_temps, O)
  = (Raise (Exn LookupError
              "Can't load data for start date 1900-01-01: connection refused"
              (Some (Exn RequestException "connection refused" None))),
     (Demo.seattle_temps, 1%nat))
  /\ end_setter "2999-12-31" (Demo.seattle_temps, O)
     = (Raise (Exn LookupError
                 "Can't load data for end date 2999-12-31: 'daily'"
                 (Some (Exn KeyError "'daily'" None))),
        (Demo.seattle_temps, 1%nat)).
Proof.
  split.
  - exact (proj1 (setter_failure_rolls_back Demo.seattle_temps "1900-01-01" O)
                 (Exn RequestException "connection refused" None)
                 (set_start Demo.seattle_temps "1900-01-01", 1%nat) eq_refl).
  - exact (proj2 (setter_failure_rolls_back Demo.seattle_temps "2999-12-31" O)
                 (Exn KeyError "'daily'" None)
                 (set_end Demo.seattle_temps "2999-12-31", 1%nat) eq_refl).
Defined.

Lemma construction_by_coordinates_witness :
  __init__ "98101" "2023-08-23" "2023-08-25" O = (Ok Demo.seattle_temps, 1%nat)
  /\ __init__ "00000" "2023-08-23" "2023-08-25" O
     = (Raise (Exn LookupError "Invalid zip code: Location not found" None), O).
Proof.
  split.
  - destruct (construction_by_coordinates (services := Demo.services) "98101" "2023-08-23" "2023-08-25" O O
                Demo.seattle (Demo.dec 476114 4) (Demo.dec (-1223305) 4)
                eq_refl eq_refl eq_refl eq_refl) as [_ H].
    destruct (H eq_refl) as [Hok _].
    exact (Hok (Demo.seattle_temps, 1%nat) eq_refl).
  - destruct (construction_by_coordinates (services := Demo.services) "00000" "2023-08-23" "2023-08-25" O O
                Demo.unknown_row Demo.nan Demo.nan
                eq_refl eq_refl eq_refl eq_refl) as [H _].
    exact (H eq_refl).
Defined.

(** C2 as stated fails when the archive cannot be reached: the zip code
    98101 resolves to coordinates that are not NaN, and the construction
    raises what the first load raises. *)
Lemma construction_fails_when_archive_is_down :
  query_postal_code "us" "98101" O = (Ok Demo.seattle, O)
  /\ math_isnan (loc_latitude Demo.seattle) = Ok false
  /\ math_isnan (loc_longitude Demo.seattle) = Ok false
  /\ __init__ "98101" "1900-01-01" "2023-08-25" O
     = (Raise (Exn RequestException "connection refused" None), 1%nat)
  /\ ~ (exists dataset e', __init__ "98101" "1900-01-01" "2023-08-25" O = (Ok dataset, e')).
Proof.
  repeat split. intros (dataset & e' & H). discriminate H.
Qed.

(** A geocoder row that is empty gives [None] coordinates, on which
    [math.isnan] raises [TypeError]: the construction does not end in a
    [LookupError] there. *)
Example construction_on_empty_row :
  __init__ "" "2023-08-23" "2023-08-25" O
  = (Raise (Exn TypeError "must be real number, not NoneType" None), O).
Proof. reflexivity. Qed.

Lemma zip_to_loc_info_no_location_witness :
  exists found,
    zip_to_loc_info "" O = (Ok found, O)
    /\ (loc_empty Demo.empty_row = true -> found = (PNone, PNone, PNone))
    /\ (loc_empty Demo.empty_row = false ->
        found = (loc_latitude Demo.empty_row, loc_longitude Demo.empty_row,
                 loc_place_name Demo.empty_row)).
Proof.
  apply (zip_to_loc_info_no_location (services := Demo.services) "" O O Demo.empty_row). reflexivity.
Defined.

Lemma convert_json_pairs_up_to_shorter_witness :
  _convert_json_to_list "uneven body"
  = Ok [(Demo.D1, Demo.t60); (Demo.D2, Demo.t75)].
Proof.
  apply (convert_json_pairs_up_to_shorter (services := Demo.services) "uneven body"
           [("daily", PDict [("time", PList [Demo.D1; Demo.D2; Demo.D3]);
                             ("temperature_2m_max", PList [Demo.t60; Demo.t75])])]
           [("time", PList [Demo.D1; Demo.D2; Demo.D3]);
            ("temperature_2m_max", PList [Demo.t60; Demo.t75])]
           [Demo.D1; Demo.D2; Demo.D3] [Demo.t60; Demo.t75]);
    reflexivity.
Defined.

Lemma invalid_zip_empties_slot_witness :
  exists w',
    menu_body {| dataset_one := Some Demo.seattle_temps; dataset_two := None |}
              (Demo.console ["1"; "00000"])
    = (Ok (Continue, {| dataset_one := None; dataset_two := None |}), w')
    /\ w_stdin w' = [].
Proof.
  destruct (invalid_zip_empties_slot (services := Demo.services)
              {| dataset_one := Some Demo.seattle_temps; dataset_two := None |}
              (Demo.console ["1"; "00000"]) "1" "00000" []
              (Exn LookupError "Invalid zip code: Location not found" None) O
              eq_refl eq_refl eq_refl) as (_ & H & _).
  destruct (H eq_refl) as (w' & Hbody & Hin & _).
  exists w'. split; assumption.
Defined.

Lemma change_dates_failures_witness :
  change_dates (Demo.seattle_temps, Demo.console ["1900-01-01"; "2023-08-31"])
  = (Ok tt,
     (Demo.seattle_temps,
      {| w_env := 1%nat; w_stdin := ["2023-08-31"];
         w_stdout := ["Enter the new start date (YYYY-MM-DD): ";
                      "Failed to change the start date: Can't load data for start date 1900-01-01: connection refused"
                        ++ newline] |})).
Proof.
  destruct (change_dates_failures (services := Demo.services) Demo.seattle_temps
              (Demo.console ["1900-01-01"; "2023-08-31"]) "1900-01-01" ["2023-08-31"]
              eq_refl eq_refl) as [H _].
  exact (H (Exn RequestException "connection refused" None)
           (set_start Demo.seattle_temps "1900-01-01", 1%nat) eq_refl).
Defined.

(** The second case of the dialog: the start 2023-08-01 is accepted, the
    end 2999-12-31 is refused, and the dataset is left with the new start
    and the old end. *)
Example change_dates_keeps_new_start :
  exists d1 w',
    change_dates (Demo.seattle_temps, Demo.console ["2023-08-01"; "2999-12-31"])
    = (Ok tt, (d1, w'))
    /\ _start d1 = "2023-08-01"
    /\ _end d1 = "2023-08-25"
    /\ _temp_list d1 = Some [(Demo.D1, Demo.t60); (Demo.D2, Demo.t75)].
Proof. do 2 eexists. repeat split. Qed.

(** A session in which the user quits at once. *)
Example quit_at_once :
  menu 1 (Demo.console ["9"])
  = Some (Ok tt,
          {| w_env := O; w_stdin := [];
             w_stdout := ["Main Menu" ++ newline;
                          "1 - Load dataset one" ++ newline;
                          "2 - Load dataset two" ++ newline;
                          "3 - Compare average temperatures" ++ newline;
                          "4 - Dates above threshold temperature" ++ newline;
                          "5 - Highest historical dates" ++ newline;
                          "6 - Change start and end dates for dataset one" ++ newline;
                          "7 - Change start and end dates for dataset two" ++ newline;
                          "9 - Quit" ++ newline;
                          "What is your choice?";
                          "Goodbye! Thank you for using the database" ++ newline] |}).
Proof. reflexivity. Qed.

(** * Further properties of the queries *)

(** ** extreme_days *)

Lemma fgtb_above_lower (x t1 t2 : float) :
  fleb t1 t2 = true -> fgtb x t2 = true -> fgtb x t1 = true.
Proof.
  unfold fleb, fgtb.
  destruct x as [[]|[]| |[] m1 e1], t1 as [[]|[]| |[] m2 e2], t2 as [[]|[]| |[] m3 e3]; simpl;
    try congruence; rewrite ?Pos.compare_cont_spec; simpl;
    cmp_cases; subst; simpl; try congruence; try lia.
Qed.

Lemma extreme_days_entries (self : HistoricalTemps) (days : list day) (t : float) :
  extreme_days (loaded self days) t
  = Ok (entries (filter (fun d => fgtb (snd d) t) days)).
Proof. unfold extreme_days, loaded. simpl. apply days_above_entries. Qed.

(** X1. Raising the threshold only removes days: for [t1 <= t2] the days
    [extreme_days(t2)] returns are the days of [extreme_days(t1)] that are
    above [t2], in the same order. *)
Theorem extreme_days_higher_threshold
        (self : HistoricalTemps) (days : list day) (t1 t2 : float) :
  fleb t1 t2 = true ->
  exists above1,
    extreme_days (loaded self days) t1 = Ok (entries above1)
    /\ extreme_days (loaded self days) t2
       = Ok (entries (filter (fun d => fgtb (snd d) t2) above1))
    /\ extreme_days (loaded self above1) t2 = extreme_days (loaded self days) t2.
Proof.
  intros Hle. exists (filter (fun d => fgtb (snd d) t1) days).
  assert (E : filter (fun d : day => fgtb (snd d) t2) (filter (fun d => fgtb (snd d) t1) days)
              = filter (fun d => fgtb (snd d) t2) days).
  { induction days as [|d days IH]; simpl; [reflexivity|].
    destruct (fgtb (snd d) t2) eqn:H2.
    - rewrite (fgtb_above_lower _ _ _ Hle H2). simpl. rewrite H2, IH. reflexivity.
    - destruct (fgtb (snd d) t1); simpl; [rewrite H2|]; exact IH. }
  rewrite !extreme_days_entries. split; [reflexivity|].
  split; do 2 f_equal; [symmetry|]; exact E.
Qed.

Lemma extreme_days_higher_threshold_witness :
  exists above1,
    extreme_days (loaded Demo.seattle_temps
                    [("2023-08-23", float_of_Z 60); ("2023-08-24", float_of_Z 75);
                     ("2023-08-25", float_of_Z 50)]) (float_of_Z 55) = Ok (entries above1)
    /\ extreme_days (loaded Demo.seattle_temps
                       [("2023-08-23", float_of_Z 60); ("2023-08-24", float_of_Z 75);
                        ("2023-08-25", float_of_Z 50)]) (float_of_Z 70)
       = Ok (entries (filter (fun d => fgtb (snd d) (float_of_Z 70)) above1))
    /\ extreme_days (loaded Demo.seattle_temps above1) (float_of_Z 70)
       = extreme_days (loaded Demo.seattle_temps
                         [("2023-08-23", float_of_Z 60); ("2023-08-24", float_of_Z 75);
                          ("2023-08-25", float_of_Z 50)]) (float_of_Z 70).
Proof.
  apply (extreme_days_higher_threshold Demo.seattle_temps
           [("2023-08-23", float_of_Z 60); ("2023-08-24", float_of_Z 75);
            ("2023-08-25", float_of_Z 50)] (float_of_Z 55) (float_of_Z 70)).
  reflexivity.
Defined.

(** X2. NaN is above nothing and nothing is above NaN: with a NaN
    threshold [extreme_days] returns the empty list, and with any threshold
    it returns no day whose temperature is NaN. *)
Theorem extreme_days_nan (self : HistoricalTemps) (days : list day) (t : float) :
  extreme_days (loaded self days) S754_nan = Ok []
  /\ exists above,
      extreme_days (loaded self days) t = Ok (entries above)
      /\ Forall (fun d => float_is_nan (snd d) = false) above.
Proof.
  rewrite !extreme_days_entries. split.
  - f_equal.
    assert (E : filter (fun d : day => fgtb (snd d) S754_nan) days = []);
      [|unfold day in *; rewrite E; reflexivity].
    induction days as [|d days IH]; simpl; [reflexivity|].
    replace (fgtb (snd d) S754_nan) with false; [exact IH|].
    unfold fgtb. destruct (snd d) as [| | |]; reflexivity.
  - eexists. split; [reflexivity|].
    apply Forall_forall. intros d Hd. apply filter_In in Hd. destruct Hd as [_ Hd].
    unfold fgtb in Hd. destruct (snd d); simpl in *; congruence.
Qed.

(** X3. A temperature that is no number (the [null] the archive sends for
    a day without data) makes the queries raise [TypeError]: [extreme_days]
    for every threshold, and [average_temp], as soon as one entry after
    well-formed days holds such a value. *)
Theorem queries_on_missing_temperature
        (self : HistoricalTemps) (days : list day) (date v : pyval) (rest : payload)
        (t : float) :
  to_number v = None ->
  let temp_list := (entries days ++ (date, v) :: rest)%list in
  extreme_days (set_temp_list self (Some temp_list)) t
  = Raise (Exn TypeError ("'>' not supported between instances of '"
                            ++ type_name v ++ "' and 'float'") None)
  /\ exists e, average_temp (set_temp_list self (Some temp_list)) = Raise e
               /\ exn_cls e = TypeError.
Proof.
  intros Hv temp_list. subst temp_list. split.
  - unfold extreme_days. cbn [_temp_list set_temp_list].
    induction days as [|d days IH]; simpl.
    + unfold py_gt_float. rewrite Hv. reflexivity.
    + rewrite IH. reflexivity.
  - unfold average_temp. cbn [_temp_list set_temp_list].
    rewrite map_app, map_snd_entries. cbn [map snd].
    assert (H : forall total temps,
               exists e, py_sum (NFloat total) (map PFloat temps ++ v :: map snd rest)%list = Raise e
                         /\ exn_cls e = TypeError).
    { intros total temps. revert total.
      induction temps as [|x temps IH]; intros total; simpl.
      - rewrite Hv. eexists. split; reflexivity.
      - apply IH. }
    destruct days as [|d days]; cbn [map app py_sum].
    + rewrite Hv. eexists. split; reflexivity.
    + cbn [to_number].
      change (num_add (NInt 0) (NFloat (snd d)))
        with (Ok (NFloat (fadd (S754_zero false) (snd d)))).
      cbn [rbind].
      destruct (H (fadd (S754_zero false) (snd d)) (map snd days)) as (e & He & Hc).
      rewrite He. exists e. split; [reflexivity|exact Hc].
Qed.


(** ** top_x_days *)

Lemma insert_desc_length (x : pyval * pyval) (s r : payload) :
  insert_desc x s = Ok r -> List.length r = S (List.length s).
Proof.
  revert r. induction s as [|y s IH]; intros r; simpl.
  - intros H. inversion H. reflexivity.
  - destruct (py_lt (snd x) (snd y)) as [[|]|e]; simpl; try discriminate.
    + destruct (insert_desc x s) as [r'|e]; simpl; [|discriminate].
      intros H. inversion H. simpl. rewrite (IH r' eq_refl). reflexivity.
    + intros H. inversion H. reflexivity.
Qed.

Lemma sorted_length (l s : payload) :
  sorted_by_temp_reverse l = Ok s -> List.length s = List.length l.
Proof.
  revert s. induction l as [|x l IH]; intros s; simpl.
  - intros H. inversion H. reflexivity.
  - destruct (sorted_by_temp_reverse l) as [s'|e]; simpl; [|discriminate].
    intros H. apply insert_desc_length in H. rewrite H, (IH s' eq_refl). reflexivity.
Qed.

Lemma py_lt_raises_TypeError (a b : pyval) (e : exn) :
  py_lt a b = Raise e -> exn_cls e = TypeError.
Proof.
  unfold py_lt. destruct (to_number a), (to_number b), a, b; intros H; inversion H; reflexivity.
Qed.

Lemma insert_desc_raises_TypeError (x : pyval * pyval) (s : payload) (e : exn) :
  insert_desc x s = Raise e -> exn_cls e = TypeError.
Proof.
  induction s as [|y s IH]; simpl; [discriminate|].
  destruct (py_lt (snd x) (snd y)) as [[|]|e'] eqn:E; simpl.
  - destruct (insert_desc x s) as [r'|e']; simpl; [discriminate|].
    intros H. inversion H; subst. apply IH. reflexivity.
  - discriminate.
  - intros H. inversion H; subst. eapply py_lt_raises_TypeError. exact E.
Qed.

Lemma sorted_raises_TypeError (l : payload) (e : exn) :
  sorted_by_temp_reverse l = Raise e -> exn_cls e = TypeError.
Proof.
  induction l as [|x l IH]; simpl; [discriminate|].
  destruct (sorted_by_temp_reverse l) as [s|e']; simpl.
  - apply insert_desc_raises_TypeError.
  - intros H. inversion H; subst. apply IH. reflexivity.
Qed.

Lemma py_lt_None_l (b : pyval) : exists e, py_lt PNone b = Raise e.
Proof. unfold py_lt. simpl. destruct (to_number b), b; eexists; reflexivity. Qed.

Lemma py_lt_None_r (a : pyval) : exists e, py_lt a PNone = Raise e.
Proof. unfold py_lt. destruct (to_number a), a; eexists; reflexivity. Qed.

Lemma sorted_with_None (l s : payload) (d : pyval) :
  sorted_by_temp_reverse l = Ok s -> In (d, PNone) l -> l = [(d, PNone)].
Proof.
  revert s. induction l as [|x l IH]; intros s Hs Hin; [contradiction|].
  simpl in Hs. destruct (sorted_by_temp_reverse l) as [s'|e] eqn:Hl; simpl in Hs; [|discriminate].
  destruct Hin as [Hx|Hin].
  - subst x. destruct l as [|y l]; [reflexivity|]. exfalso.
    pose proof (sorted_length _ _ Hl) as Hlen.
    destruct s' as [|z s']; [discriminate|]. rewrite insert_desc_cons in Hs.
    cbn [snd] in Hs.
    destruct (py_lt_None_l (snd z)) as [e He]. rewrite He in Hs. discriminate.
  - exfalso. pose proof (IH s' eq_refl Hin) as E. subst l.
    simpl in Hl. inversion Hl; subst s'. rewrite insert_desc_cons in Hs.
    cbn [snd] in Hs.
    destruct (py_lt_None_r (snd x)) as [e He]. rewrite He in Hs. discriminate.
Qed.

(** X4. A payload of two or more entries, one of which has the temperature
    [None], cannot be ranked: [top_x_days] raises [TypeError] whatever the
    number of days asked for.  (A payload of that single entry is returned
    as it is, no comparison being made.) *)
Theorem top_x_days_on_missing_temperature
        (self : HistoricalTemps) (temp_list : payload) (date : pyval) (n : Z) :
  In (date, PNone) temp_list ->
  (2 <= List.length temp_list)%nat ->
  (exists e, top_x_days (set_temp_list self (Some temp_list)) n = Raise e
             /\ exn_cls e = TypeError)
  /\ top_x_days (set_temp_list self (Some [(date, PNone)])) 1 = Ok [(date, PNone)].
Proof.
  intros Hin Hlen. split; [|reflexivity].
  unfold top_x_days. cbn [_temp_list set_temp_list].
  destruct (sorted_by_temp_reverse temp_list) as [s|e] eqn:E; simpl.
  - apply sorted_with_None with (d := date) in E; [|exact Hin].
    subst temp_list. simpl in Hlen. lia.
  - exists e. split; [reflexivity|]. eapply sorted_raises_TypeError. exact E.
Qed.

Lemma top_x_days_on_missing_temperature_witness :
  (exists e, top_x_days (set_temp_list Demo.seattle_temps
                           (Some [(Demo.D1, Demo.t60); (Demo.D2, PNone)])) 5 = Raise e
             /\ exn_cls e = TypeError)
  /\ top_x_days (set_temp_list Demo.seattle_temps (Some [(Demo.D2, PNone)])) 1
     = Ok [(Demo.D2, PNone)].
Proof.
  apply (top_x_days_on_missing_temperature Demo.seattle_temps
           [(Demo.D1, Demo.t60); (Demo.D2, PNone)] Demo.D2 5).
  - right. left. reflexivity.
  - simpl. lia.
Defined.

(** The typed view of the whole payload sorted. *)
Lemma top_x_days_entries (self : HistoricalTemps) (days : list day) :
  exists s,
    Permutation s days
    /\ (no_nan days -> descending s)
    /\ forall n, top_x_days (loaded self days) n = Ok (entries (slice_to s n)).
Proof.
  destruct (sorted_entries days) as (s & Hs & Hperm & _ & Hsorted).
  exists s. repeat split; auto.
  intros n. unfold top_x_days, loaded. cbn [_temp_list set_temp_list].
  rewrite Hs. cbn [rbind]. f_equal. unfold slice_to, entries.
  rewrite length_map. destruct (0 <=? n); apply firstn_map.
Qed.

(** X5. Asking for fewer days gives the beginning of what asking for more
    gives: for [0 <= m <= n], [top_x_days(m)] is the list of the first [m]
    entries of [top_x_days(n)].  For a negative [n] the result has
    [max(0, |payload| + n)] entries. *)
Theorem top_x_days_prefix (self : HistoricalTemps) (days : list day) (m n : Z) :
  exists top_m top_n,
    top_x_days (loaded self days) m = Ok (entries top_m)
    /\ top_x_days (loaded self days) n = Ok (entries top_n)
    /\ (0 <= m <= n -> top_m = firstn (Z.to_nat m) top_n)
    /\ (n < 0 -> Z.of_nat (List.length top_n) = Z.max 0 (Z.of_nat (List.length days) + n)).
Proof.
  destruct (top_x_days_entries self days) as (s & Hperm & _ & Htop).
  exists (slice_to s m), (slice_to s n). rewrite !Htop. repeat split.
  - intros [Hm Hn]. unfold slice_to.
    destruct (0 <=? m) eqn:Em; [|apply Z.leb_gt in Em; lia].
    destruct (0 <=? n) eqn:En; [|apply Z.leb_gt in En; lia].
    rewrite firstn_firstn. f_equal. lia.
  - intros Hn. unfold slice_to.
    destruct (0 <=? n) eqn:En; [apply Z.leb_le in En; lia|].
    rewrite length_firstn, (Permutation_length Hperm). lia.
Qed.

Lemma top_x_days_prefix_witness :
  exists top_m top_n,
    top_x_days Demo.seattle_temps 1 = Ok (entries top_m)
    /\ top_x_days Demo.seattle_temps 2 = Ok (entries top_n)
    /\ top_m = firstn 1 top_n.
Proof.
  destruct (top_x_days_prefix Demo.seattle_temps
              [("2023-08-23", float_of_Z 60); ("2023-08-24", float_of_Z 75);
               ("2023-08-25", float_of_Z 50)] 1 2) as (tm & tn & Hm & Hn & Hpre & _).
  exists tm, tn. repeat split; [exact Hm|exact Hn|].
  apply Hpre. lia.
Defined.

Lemma entries_inj (a b : list day) : entries a = entries b -> a = b.
Proof.
  revert b. induction a as [|[d t] a IH]; intros [|[d' t'] b] H; try discriminate; auto.
  simpl in H. inversion H. f_equal. apply IH. assumption.
Qed.

Lemma fleb_refl (t : float) : float_is_nan t = false -> fleb t t = true.
Proof.
  intros H. apply not_fltb_fleb; auto.
  unfold fltb. destruct t as [[]|[]| |[] m e]; simpl; try reflexivity; try discriminate;
    rewrite ?Pos.compare_cont_spec, Z.compare_refl, Pos.compare_refl; reflexivity.
Qed.

(** X6. The day [top_x_days(1)] returns is the hottest: on a payload
    without NaN no day is above its temperature, so [extreme_days] at that
    temperature is empty. *)
Theorem hottest_day_is_not_exceeded
        (self : HistoricalTemps) (days : list day) (date : string) (t : float) :
  no_nan days ->
  top_x_days (loaded self days) 1 = Ok (entries [(date, t)]) ->
  In (date, t) days /\ extreme_days (loaded self days) t = Ok [].
Proof.
  intros Hnan Htop.
  destruct (top_x_days_entries self days) as (s & Hperm & Hsorted & Hs).
  rewrite Hs in Htop. inversion Htop as [E].
  change [entry (date, t)] with (entries [(date, t)]) in E. apply entries_inj in E.
  unfold slice_to in E. simpl in E.
  destruct s as [|x s]; [discriminate|]. simpl in E. inversion E; subst x.
  assert (Hin : In (date, t) days) by (apply (Permutation_in _ Hperm); left; reflexivity).
  split; [exact Hin|].
  rewrite extreme_days_entries. f_equal.
  assert (Hall : Forall (fun d : day => fleb (snd d) t = true) days).
  { apply (Permutation_Forall Hperm). specialize (Hsorted Hnan).
    apply StronglySorted_inv in Hsorted. destruct Hsorted as [_ Hall].
    constructor; [|exact Hall]. simpl. apply fleb_refl.
    unfold no_nan in Hnan. rewrite Forall_forall in Hnan. apply (Hnan _ Hin). }
  assert (E' : filter (fun d : day => fgtb (snd d) t) days = []).
  { clear -Hall. induction Hall as [|d days Hd _ IH]; simpl; [reflexivity|].
    rewrite (fleb_not_fgtb _ _ Hd). exact IH. }
  unfold day in *. rewrite E'. reflexivity.
Qed.

Lemma hottest_day_is_not_exceeded_witness :
  In ("2023-08-24", float_of_Z 75)
     [("2023-08-23", float_of_Z 60); ("2023-08-24", float_of_Z 75);
      ("2023-08-25", float_of_Z 50)]
  /\ extreme_days Demo.seattle_temps (float_of_Z 75) = Ok [].
Proof.
  apply (hottest_day_is_not_exceeded Demo.seattle_temps
           [("2023-08-23", float_of_Z 60); ("2023-08-24", float_of_Z 75);
            ("2023-08-25", float_of_Z 50)] "2023-08-24" (float_of_Z 75)).
  - repeat constructor.
  - reflexivity.
Defined.

(** * Further properties of the class and of the session *)

Section MoreProofs.

Context {env : Type} {services : Outside env}.

(** ** Parsing the archive's answer *)

Lemma zip_fst {A B : Type} (l1 : list A) (l2 : list B) :
  List.length l1 = List.length l2 -> map fst (zip l1 l2) = l1.
Proof.
  revert l2. induction l1 as [|a l1 IH]; intros [|b l2] H; simpl in *; try discriminate; auto.
  f_equal. apply IH. lia.
Qed.

Lemma zip_snd {A B : Type} (l1 : list A) (l2 : list B) :
  List.length l1 = List.length l2 -> map snd (zip l1 l2) = l2.
Proof.
  revert l2. induction l1 as [|a l1 IH]; intros [|b l2] H; simpl in *; try discriminate; auto.
  f_equal. apply IH. lia.
Qed.

(** X7. When the answer of the archive holds as many temperatures as
    dates, nothing is lost in the payload: its dates are the dates of the
    answer and its temperatures the temperatures of the answer, in order. *)
Theorem convert_json_keeps_both_arrays
        (data : string) (top daily_ : list (string * pyval)) (dates temps : list pyval) :
  json_loads data = Ok (PDict top) ->
  dict_get top "daily" = Some (PDict daily_) ->
  dict_get daily_ "time" = Some (PList dates) ->
  dict_get daily_ "temperature_2m_max" = Some (PList temps) ->
  List.length dates = List.length temps ->
  exists temp_list,
    _convert_json_to_list data = Ok temp_list
    /\ map fst temp_list = dates
    /\ map snd temp_list = temps.
Proof.
  intros Hj Hd Ht Hm Hlen. exists (zip dates temps). split; [|split].
  - unfold _convert_json_to_list. rewrite Hj. simpl. rewrite Hd. simpl.
    rewrite Ht. simpl. rewrite Hm. reflexivity.
  - apply zip_fst. exact Hlen.
  - apply zip_snd. exact Hlen.
Qed.

(** X8. An answer that lacks a member the parser reads makes it raise
    [KeyError] with the name of that member; an answer the JSON parser
    refuses makes it raise what the JSON parser raised. *)
Theorem convert_json_missing_member
        (data : string) (top : list (string * pyval)) :
  json_loads data = Ok (PDict top) ->
  (dict_get top "daily" = None ->
   _convert_json_to_list data = Raise (Exn KeyError "'daily'" None))
  /\ (forall daily_,
         dict_get top "daily" = Some (PDict daily_) ->
         dict_get daily_ "time" = None ->
         _convert_json_to_list data = Raise (Exn KeyError "'time'" None))
  /\ (forall daily_ dates,
         dict_get top "daily" = Some (PDict daily_) ->
         dict_get daily_ "time" = Some dates ->
         dict_get daily_ "temperature_2m_max" = None ->
         _convert_json_to_list data = Raise (Exn KeyError "'temperature_2m_max'" None)).
Proof.
  intros Hj. unfold _convert_json_to_list. rewrite Hj. simpl. repeat split.
  - intros H. rewrite H. reflexivity.
  - intros daily_ Hd Ht. rewrite Hd. simpl. rewrite Ht. reflexivity.
  - intros daily_ dates Hd Ht Hm. rewrite Hd. simpl. rewrite Ht. simpl. rewrite Hm. reflexivity.
Qed.

(** ** Loading and assigning *)

Lemma load_temps_eq (self : HistoricalTemps) (e : env) :
  _load_temps (self, e)
  = match requests_get request_url (request_of self) e with
    | (Ok json_data, e') =>
        match _convert_json_to_list json_data with
        | Ok temp_list => (Ok tt, (set_temp_list self (Some temp_list), e'))
        | Raise x => (Raise x, (self, e'))
        end
    | (Raise x, e') => (Raise x, (self, e'))
    end.
Proof.
  unfold _load_temps, request_of. run.
  destruct (requests_get _ _ e) as [[json_data|x] e']; simpl; [|reflexivity].
  destruct (_convert_json_to_list json_data); reflexivity.
Qed.

(** X9. A load is all or nothing: whatever it does, the zip code, the two
    dates, the coordinates and the name of the dataset stay as they were;
    when it returns the dataset has a payload, and when it raises the
    payload too is the one before. *)
Theorem load_temps_all_or_nothing
        (self self' : HistoricalTemps) (e e' : env) (r : result unit) :
  _load_temps (self, e) = (r, (self', e')) ->
  _zip_code self' = _zip_code self
  /\ _start self' = _start self
  /\ _end self' = _end self
  /\ _lat self' = _lat self
  /\ _lon self' = _lon self
  /\ _loc_name self' = _loc_name self
  /\ match r with
     | Ok _ => is_data_loaded self' = true
     | Raise _ => self' = self
     end.
Proof.
  rewrite load_temps_eq.
  destruct (requests_get _ _ e) as [[json_data|x] e1].
  - destruct (_convert_json_to_list json_data) as [temp_list|x];
      intros H; inversion H; subst; repeat split.
  - intros H; inversion H; subst; repeat split.
Qed.

Lemma end_setter_ok (self : HistoricalTemps) (value : string) (e : env) (s' : obj) :
  _load_temps (set_end self value, e) = (Ok tt, s') ->
  end_setter value (self, e) = (Ok tt, s').
Proof.
  intros H. unfold end_setter. run. rewrite H. reflexivity.
Qed.

(** X10. An assignment to [start] or to [end] whose reload succeeds asks
    the archive once, for the new date together with the other date as it
    stands, and leaves the dataset with the new date and the payload parsed
    from the answer; nothing else changes. *)
Theorem setter_success_commits
        (self : HistoricalTemps) (value : string) (e e' : env)
        (json_data : string) (temp_list : payload) :
  _convert_json_to_list json_data = Ok temp_list ->
  (requests_get request_url (request_of (set_start self value)) e = (Ok json_data, e') ->
   start_setter value (self, e)
   = (Ok tt, (set_temp_list (set_start self value) (Some temp_list), e')))
  /\ (requests_get request_url (request_of (set_end self value)) e = (Ok json_data, e') ->
      end_setter value (self, e)
      = (Ok tt, (set_temp_list (set_end self value) (Some temp_list), e'))).
Proof.
  intros Hc. split; intros Hr.
  - apply start_setter_ok. rewrite load_temps_eq, Hr, Hc. reflexivity.
  - apply end_setter_ok. rewrite load_temps_eq, Hr, Hc. reflexivity.
Qed.

(** ** The constructor *)

(** X11. Every dataset the constructor returns is loaded, has the zip code
    and the dates it was given, and coordinates that are numbers and not
    NaN. *)
Theorem constructed_dataset_is_loaded
        (zip_code start end_ : string) (e e' : env) (dataset : HistoricalTemps) :
  __init__ zip_code start end_ e = (Ok dataset, e') ->
  is_data_loaded dataset = true
  /\ _zip_code dataset = zip_code
  /\ _start dataset = start
  /\ _end dataset = end_
  /\ math_isnan (_lat dataset) = Ok false
  /\ math_isnan (_lon dataset) = Ok false.
Proof.
  unfold __init__. unfold bind at 1.
  destruct (zip_to_loc_info zip_code e) as [[[[lat lon] name]|x] e1]; [|discriminate].
  unfold bind at 1. unfold lift at 1.
  destruct (math_isnan lat) as [[|]|x] eqn:Hlat; try discriminate.
  unfold bind at 1. unfold lift at 1.
  destruct (math_isnan lon) as [[|]|x] eqn:Hlon; try discriminate.
  unfold on_object.
  set (self := {| _zip_code := zip_code; _start := start; _end := end_; _lat := lat;
                  _lon := lon; _loc_name := name; _temp_list := None |}).
  rewrite load_temps_eq.
  destruct (requests_get _ _ e1) as [[json_data|x] e2]; [|discriminate].
  destruct (_convert_json_to_list json_data) as [temp_list|x]; [|discriminate].
  intros H. inversion H; subst dataset e'. clear H.
  subst self. simpl. repeat split; assumption.
Qed.

(** ** Creating a dataset *)

Lemma create_dataset_uncaught
      (w : world) (zip_code : string) (rest : list string) (cause : exn) (e' : env) :
  w_stdin w = zip_code :: rest ->
  __init__ zip_code default_start default_end (w_env w) = (Raise cause, e') ->
  isinstance cause LookupError = false ->
  create_dataset w
  = (Raise cause,
     {| w_env := e'; w_stdin := rest;
        w_stdout := w_stdout w ++ ["Please enter a zip code: "] |}).
Proof.
  destruct w as [e stdin out]. simpl. intros -> Hinit Hcls.
  unfold create_dataset, input, write, print, outside. run. rewrite Hinit. simpl.
  rewrite Hcls. reflexivity.
Qed.

(** X12. [create_dataset] reads one line as the zip code and gives back
    the dataset when the construction succeeds; an exception of the
    construction that is no [LookupError] (the archive cannot be reached, its
    answer is no JSON) is not caught: it goes on to the caller and no message
    is printed; at the end of the input the prompt is followed by
    [EOFError]. *)
Theorem create_dataset_outcomes (w : world) :
  (forall zip_code rest dataset e',
      w_stdin w = zip_code :: rest ->
      __init__ zip_code default_start default_end (w_env w) = (Ok dataset, e') ->
      create_dataset w
      = (Ok (Some dataset),
         {| w_env := e'; w_stdin := rest;
            w_stdout := w_stdout w ++ ["Please enter a zip code: "] |}))
  /\ (forall zip_code rest cause e',
         w_stdin w = zip_code :: rest ->
         __init__ zip_code default_start default_end (w_env w) = (Raise cause, e') ->
         isinstance cause LookupError = false ->
         create_dataset w
         = (Raise cause,
            {| w_env := e'; w_stdin := rest;
               w_stdout := w_stdout w ++ ["Please enter a zip code: "] |}))
  /\ (w_stdin w = [] ->
      create_dataset w
      = (Raise (Exn EOFError "EOF when reading a line" None),
         {| w_env := w_env w; w_stdin := [];
            w_stdout := w_stdout w ++ ["Please enter a zip code: "] |})).
Proof.
  destruct w as [e stdin out]. simpl. repeat split.
  - intros zip_code rest dataset e' -> Hinit.
    unfold create_dataset, input, write, print, outside. run. rewrite Hinit. reflexivity.
  - intros zip_code rest cause e' -> Hinit Hcls.
    exact (create_dataset_uncaught {| w_env := e; w_stdin := zip_code :: rest;
                                      w_stdout := out |} zip_code rest cause e'
             eq_refl Hinit Hcls).
  - intros ->. reflexivity.
Qed.


(** X14. An error body of the archive is taken for an invalid zip code:
    when the zip code resolves to coordinates and the archive answers the
    first load with an object that has no ["daily"] member, the [KeyError]
    of the parser is caught as a [LookupError], [create_dataset] prints that
    the zip code is invalid and returns [None]. *)
Theorem archive_error_reported_as_invalid_zip
        (w : world) (zip_code : string) (rest : list string)
        (loc : location) (lat lon : float) (e1 e2 : env)
        (body : string) (top : list (string * pyval)) :
  w_stdin w = zip_code :: rest ->
  query_postal_code "us" zip_code (w_env w) = (Ok loc, e1) ->
  loc_empty loc = false ->
  loc_latitude loc = PFloat lat -> float_is_nan lat = false ->
  loc_longitude loc = PFloat lon -> float_is_nan lon = false ->
  requests_get request_url
    {| latitude := PFloat lat; longitude := PFloat lon;
       start_date := default_start; end_date := default_end;
       daily := "temperature_2m_max"; timezone := "America/Los_Angeles" |} e1
  = (Ok body, e2) ->
  json_loads body = Ok (PDict top) ->
  dict_get top "daily" = None ->
  create_dataset w
  = (Ok None,
     {| w_env := e2; w_stdin := rest;
        w_stdout := w_stdout w
                    ++ ["Please enter a zip code: ";
                        "Error: The entered zip code is invalid. Please try again." ++ newline] |}).
Proof.
  intros Hin Hq Hne Hlat Hnlat Hlon Hnlon Hr Hj Hd.
  apply (create_dataset_lookup_error w zip_code rest (Exn KeyError "'daily'" None) e2);
    [exact Hin| |reflexivity].
  unfold __init__, zip_to_loc_info. run.
  rewrite Hq, Hne, Hlat, Hlon. simpl. rewrite Hnlat. simpl. rewrite Hnlon. simpl.
  rewrite load_temps_eq. unfold request_of. cbn [_lat _lon _start _end].
  rewrite Hr. unfold _convert_json_to_list. rewrite Hj. simpl. rewrite Hd.
  reflexivity.
Qed.

(** ** The menu *)

Ltac split_choice :=
  repeat match goal with
         | |- context [match ?p with _ => _ end] => is_var p; destruct p
         end.

(** X15. An input that is no menu option changes nothing: when the line is
    no number ([int] raises [ValueError]) the menu says so, and when it is a
    number other than 1 to 7 and 9 the menu says it is no valid selection; in
    both cases the two slots and the state outside are as before and the loop
    goes on. *)
Theorem invalid_choice_changes_nothing
        (sl : slots) (w : world) (line : string) (rest : list string) :
  w_stdin w = line :: rest ->
  exists out,
    (forall e, py_int line = Raise e -> isinstance e ValueError = true ->
               menu_body sl w
               = (Ok (Continue, sl),
                  {| w_env := w_env w; w_stdin := rest;
                     w_stdout := out ++ ["What is your choice?";
                                         "Please enter a number only" ++ newline] |}))
    /\ (forall option, py_int line = Ok option ->
                       ~ In option [1; 2; 3; 4; 5; 6; 7; 9] ->
                       menu_body sl w
                       = (Ok (Continue, sl),
                          {| w_env := w_env w; w_stdin := rest;
                             w_stdout := out ++ ["What is your choice?";
                                                 "That wasn't a valid selection" ++ newline] |})).
Proof.
  intros Hin.
  destruct (print_menu_frame (dataset_one sl) (dataset_two sl) w) as [out Hpm].
  exists out. split.
  - intros e Hint Hcls.
    unfold menu_body. unfold bind at 1. rewrite Hpm.
    unfold input, write, print. run. rewrite Hin. simpl. rewrite Hint. simpl.
    rewrite Hcls. simpl. rewrite <- app_assoc. reflexivity.
  - intros option Hint Hnot.
    unfold menu_body. unfold bind at 1. rewrite Hpm.
    unfold input, write, print. run. rewrite Hin. simpl. rewrite Hint. simpl.
    destruct option as [|p|p]; split_choice;
      try (exfalso; apply Hnot; simpl; tauto);
      simpl; rewrite <- app_assoc; reflexivity.
Qed.

(** X16. Options 3 to 7 refuse to work on an empty slot: comparing needs
    both datasets, options 4, 5 and 6 need dataset one and option 7 needs
    dataset two; when the slot is empty the menu prints which one is missing
    and goes on, with no other line read, no call outside and the slots as
    they were. *)
Theorem empty_slot_is_refused
        (sl : slots) (w : world) (line : string) (rest : list string)
        (option : Z) (message : string) :
  w_stdin w = line :: rest ->
  py_int line = Ok option ->
  (option = 3 /\ (dataset_one sl = None \/ dataset_two sl = None)
   /\ message = "Both datasets must be loaded before comparing.")
  \/ ((option = 4 \/ option = 5 \/ option = 6) /\ dataset_one sl = None
      /\ message = "Dataset one must be loaded first.")
  \/ (option = 7 /\ dataset_two sl = None
      /\ message = "Dataset two must be loaded first.") ->
  exists out,
    menu_body sl w
    = (Ok (Continue, sl),
       {| w_env := w_env w; w_stdin := rest;
          w_stdout := out ++ ["What is your choice?"; message ++ newline] |}).
Proof.
  intros Hin Hint Hcase.
  destruct (print_menu_frame (dataset_one sl) (dataset_two sl) w) as [out Hpm].
  exists out.
  unfold menu_body. unfold bind at 1. rewrite Hpm.
  unfold input, write, print. run. rewrite Hin. simpl. rewrite Hint. simpl.
  destruct Hcase as [(-> & Hs & ->)|[(Ho & Hs & ->)|(-> & Hs & ->)]].
  - destruct Hs as [Hs|Hs]; rewrite Hs; [|destruct (dataset_one sl)];
      simpl; rewrite <- app_assoc; reflexivity.
  - destruct Ho as [->|[->| ->]]; rewrite Hs; simpl; rewrite <- app_assoc; reflexivity.
  - rewrite Hs. simpl. rewrite <- app_assoc. reflexivity.
Qed.

(** X17. The loop is left only through option 9: a turn of the menu ends
    the loop only when the line read is the number 9, and then the slots are
    untouched and nothing but that line was read. *)
Theorem loop_breaks_only_on_nine (sl sl' : slots) (w w' : world) :
  menu_body sl w = (Ok (Break, sl'), w') ->
  exists line rest,
    w_stdin w = line :: rest
    /\ py_int line = Ok 9
    /\ sl' = sl
    /\ w_stdin w' = rest
    /\ w_env w' = w_env w.
Proof.
  destruct (print_menu_frame (dataset_one sl) (dataset_two sl) w) as [out Hpm].
  unfold menu_body. unfold bind at 1. rewrite Hpm.
  unfold input, write, print. run.
  destruct (w_stdin w) as [|line rest]; simpl; [discriminate|].
  destruct (py_int line) as [option|e] eqn:Hint; simpl.
  - destruct option as [|p|p]; split_choice; simpl;
      repeat match goal with
             | |- context [match ?x with _ => _ end] => destruct x; simpl
             end;
      intros H; inversion H; subst.
    exists line, rest. repeat split. exact Hint.
  - destruct (isinstance e ValueError); simpl; intros H; inversion H.
Qed.

Lemma break_output (sl sl' : slots) (w w' : world) :
  menu_body sl w = (Ok (Break, sl'), w') ->
  exists out, w_stdout w' = (out ++ ["What is your choice?"])%list.
Proof.
  destruct (print_menu_frame (dataset_one sl) (dataset_two sl) w) as [out Hpm].
  unfold menu_body. unfold bind at 1. rewrite Hpm.
  unfold input, write, print. run.
  destruct (w_stdin w) as [|line rest]; simpl; [discriminate|].
  destruct (py_int line) as [option|e] eqn:Hint; simpl.
  - destruct option as [|p|p]; split_choice; simpl;
      repeat match goal with
             | |- context [match ?x with _ => _ end] => destruct x; simpl
             end;
      intros H; inversion H; subst.
    exists out. reflexivity.
  - destruct (isinstance e ValueError); simpl; intros H; inversion H.
Qed.

(** X18. A session that ends without an exception has said goodbye: the
    last two things [menu()] wrote are the prompt for a choice and the
    goodbye line. *)
Theorem normal_end_says_goodbye (fuel : nat) (sl : slots) (w w' : world) :
  menu_loop fuel sl w = Some (Ok tt, w') ->
  exists out,
    w_stdout w'
    = (out ++ ["What is your choice?";
               String.append "Goodbye! Thank you for using the database" newline])%list.
Proof.
  revert sl w. induction fuel as [|fuel IH]; intros sl w; simpl; [discriminate|].
  destruct (menu_body sl w) as [[[[|] sl1]|e] w1] eqn:Hbody.
  - apply IH.
  - apply break_output in Hbody. destruct Hbody as [out Hout].
    unfold print, write. intros H. inversion H. simpl. rewrite Hout.
    exists out. rewrite <- app_assoc. reflexivity.
  - discriminate.
Qed.

(** *** The slots hold loaded datasets *)

Lemma init_is_loaded (zip_code start end_ : string) (e e' : env) (dataset : HistoricalTemps) :
  __init__ zip_code start end_ e = (Ok dataset, e') -> is_data_loaded dataset = true.
Proof.
  unfold __init__. unfold bind at 1.
  destruct (zip_to_loc_info zip_code e) as [[[[lat lon] name]|x] e1]; [|discriminate].
  unfold bind at 1. unfold lift at 1.
  destruct (math_isnan lat) as [[|]|x]; try discriminate.
  unfold bind at 1. unfold lift at 1.
  destruct (math_isnan lon) as [[|]|x]; try discriminate.
  unfold on_object. rewrite load_temps_eq.
  destruct (requests_get _ _ e1) as [[json_data|x] e2]; [|discriminate].
  destruct (_convert_json_to_list json_data) as [temp_list|x]; [|discriminate].
  intros H. inversion H. reflexivity.
Qed.

Lemma create_dataset_loaded (w w' : world) (slot : option HistoricalTemps) :
  create_dataset w = (Ok slot, w') -> slot_loaded slot.
Proof.
  unfold create_dataset, input, write, print, outside. run.
  destruct (w_stdin w) as [|zip_code rest]; simpl; [discriminate|].
  destruct (__init__ zip_code default_start default_end (w_env w)) as [[d|x] e'] eqn:Hinit; simpl.
  - intros H. inversion H. simpl. eapply init_is_loaded. exact Hinit.
  - destruct (isinstance x LookupError); simpl; intros H; inversion H. exact I.
Qed.

Lemma keeps_ret {St A} (P : St -> Prop) (a : A) : keeps P (ret a).
Proof. intros s r s' H. inversion H. auto. Qed.

Lemma keeps_bind {St A B} (P : St -> Prop) (m : M St A) (k : A -> M St B) :
  keeps P m -> (forall a, keeps P (k a)) -> keeps P (bind m k).
Proof.
  intros Hm Hk s r s'. unfold bind. destruct (m s) as [[a|e] s1] eqn:E; intros H HP.
  - eapply Hk; [exact H|]. eapply Hm; eassumption.
  - inversion H; subst. eapply Hm; eassumption.
Qed.

Lemma keeps_try {St A} (P : St -> Prop) (m : M St A) (c : exn_class) (h : exn -> M St A) :
  keeps P m -> (forall e, keeps P (h e)) -> keeps P (try_except m c h).
Proof.
  intros Hm Hh s r s'. unfold try_except. destruct (m s) as [[a|e] s1] eqn:E; intros H HP.
  - inversion H; subst. eapply Hm; eassumption.
  - destruct (isinstance e c).
    + eapply Hh; [exact H|]. eapply Hm; eassumption.
    + inversion H; subst. eapply Hm; eassumption.
Qed.

Lemma keeps_beside {A} (m : M world A) : keeps (@dataset_loaded (@world env)) (beside m).
Proof.
  intros s r s'. unfold beside, zoom, dataset_loaded.
  destruct (m (snd s)). intros H. inversion H. auto.
Qed.

Lemma keeps_self : keeps (@dataset_loaded (@world env)) self_.
Proof. intros s r s' H. inversion H. auto. Qed.

Lemma keeps_start_setter (value : string) :
  keeps (@dataset_loaded env) (start_setter value).
Proof.
  intros [d e] r [d' e'] H HP. unfold dataset_loaded in *. simpl in *.
  destruct (_load_temps (set_start d value, e)) as [[[]|x] s1] eqn:Hload.
  - rewrite (start_setter_ok _ _ _ _ Hload) in H.
    destruct (load_temps_ok _ _ _ Hload) as [l Hl]. inversion H; subst. simpl in Hl.
    rewrite Hl. reflexivity.
  - rewrite (start_setter_fail _ _ _ _ _ Hload) in H. inversion H; subst. exact HP.
Qed.

Lemma keeps_end_setter (value : string) :
  keeps (@dataset_loaded env) (end_setter value).
Proof.
  intros [d e] r [d' e'] H HP. unfold dataset_loaded in *. simpl in *.
  destruct (_load_temps (set_end d value, e)) as [[[]|x] s1] eqn:Hload.
  - rewrite (end_setter_ok _ _ _ _ Hload) in H.
    destruct (load_temps_ok _ _ _ Hload) as [l Hl]. inversion H; subst. simpl in Hl.
    rewrite Hl. reflexivity.
  - rewrite (end_setter_fail _ _ _ _ _ Hload) in H. inversion H; subst. exact HP.
Qed.

Lemma keeps_method {A} (m : M obj A) :
  keeps (@dataset_loaded env) m -> keeps (@dataset_loaded (@world env)) (method m).
Proof.
  intros Hm s r s'. unfold method, zoom, dataset_loaded in *.
  destruct (m (fst s, w_env (snd s))) as [x s1] eqn:E. intros H HP. inversion H. simpl.
  apply (Hm _ _ _ E). exact HP.
Qed.

Lemma keeps_change_dates : keeps (@dataset_loaded (@world env)) change_dates.
Proof.
  unfold change_dates.
  repeat first
    [ apply keeps_ret | apply keeps_beside | apply keeps_self
    | apply keeps_method; (apply keeps_start_setter || apply keeps_end_setter)
    | apply keeps_bind | apply keeps_try
    | match goal with
      | |- forall _, _ => intro
      | |- keeps _ (if ?b then _ else _) => destruct b
      end ].
Qed.

(** X19. The slots of the menu only ever hold loaded datasets: a turn of
    the menu that finds a payload in every dataset of the slots (as when
    both are empty, at the start) leaves them so, whichever option is taken.
    So the "not loaded" messages of the printing functions and of the date
    dialog are never reached from the menu. *)
Theorem menu_keeps_slots_loaded (sl sl' : slots) (w w' : world) (ctl : loop_ctl) :
  menu_body sl w = (Ok (ctl, sl'), w') -> slots_loaded sl -> slots_loaded sl'.
Proof.
  unfold menu_body. intros H [H1 H2].
  apply bind_ok_inv in H. destruct H as (? & w1 & _ & H).
  apply bind_ok_inv in H. destruct H as (chosen & w2 & _ & H).
  assert (Hnew : forall d w3 w4, create_dataset w3 = (Ok d, w4) -> slot_loaded d)
    by (intros d w3 w4 Hd; exact (create_dataset_loaded _ _ _ Hd)).
  assert (Hdates : forall d d' w3 w4, on_object d change_dates w3 = (Ok d', w4) ->
                                      is_data_loaded d = true -> is_data_loaded d' = true).
  { intros d d' w3 w4. unfold on_object.
    destruct (change_dates (d, w3)) as [[[]|x0] s1] eqn:E; [|discriminate].
    intros Hd Hl. inversion Hd; subst.
    exact (keeps_change_dates _ _ _ E Hl). }
  destruct sl as [[d1|] [d2|]]; simpl in *;
    destruct chosen as [[|p|p]|]; revert H; split_choice; intros H;
    try (apply bind_ok_inv in H; destruct H as (? & ? & Hstep & H));
    inversion H; subst; split; simpl in *; eauto.
Qed.

(** ** The printing functions *)

Lemma for_each_ext {A St} (items : list A) (f g : A -> M St unit) :
  (forall x, f x = g x) -> for_each items f = for_each items g.
Proof.
  intros H. induction items as [|x items IH]; simpl; [reflexivity|].
  rewrite H, IH. reflexivity.
Qed.

Lemma for_each_print {A} (items : list A) (line : A -> string) (w : @world env) :
  for_each items (fun x => print (line x)) w
  = (Ok tt, {| w_env := w_env w; w_stdin := w_stdin w;
               w_stdout := (w_stdout w
                            ++ map (fun x => String.append (line x) newline) items)%list |}).
Proof.
  revert w. induction items as [|x items IH]; intros w; simpl.
  - unfold ret. rewrite app_nil_r. destruct w; reflexivity.
  - unfold bind, print, write. rewrite IH. simpl. rewrite <- app_assoc. reflexivity.
Qed.

Lemma slice_to_length {A} (l : list A) (n : nat) :
  List.length (slice_to l (Z.of_nat n)) = Nat.min n (List.length l).
Proof.
  unfold slice_to. destruct (Z.leb_spec 0 (Z.of_nat n)); [|lia].
  rewrite Nat2Z.id. apply length_firstn.
Qed.

(** X20. For a dataset with a payload of dated numbers, [print_top_five_days]
    writes the header with the name of the place and then one line for each
    of the days [top_x_days(5)] returns, in that order: five lines, or as
    many as the payload has days when these are fewer.  It reads nothing and
    calls nothing outside. *)
Theorem print_top_five_days_output
        (self : HistoricalTemps) (days : list day) (w : world) :
  exists top,
    top_x_days (loaded self days) 5 = Ok (entries top)
    /\ List.length top = Nat.min 5 (List.length days)
    /\ print_top_five_days (loaded self days) w
       = (Ok tt,
          {| w_env := w_env w; w_stdin := w_stdin w;
             w_stdout :=
               (w_stdout w
                ++ top_five_header self :: map top_five_line top)%list |}).
Proof.
  destruct (top_x_days_entries self days) as (s & Hperm & _ & Htop).
  exists (slice_to s 5). split; [apply Htop|]. split.
  - change 5 with (Z.of_nat 5). rewrite slice_to_length.
    rewrite (Permutation_length Hperm). reflexivity.
  - unfold print_top_five_days. change (is_data_loaded (loaded self days)) with true.
    cbn [negb]. unfold bind at 1. unfold lift at 1. rewrite Htop.
    unfold bind at 1. unfold print at 1, write at 1.
    rewrite (for_each_ext _ _
               (fun d => print ("Date: " ++ py_str (fst d) ++ ", Temperature: "
                                  ++ py_str (snd d) ++ "Â°F")))
      by (intros [date temp]; reflexivity).
    rewrite for_each_print. cbn [w_env w_stdin w_stdout].
    unfold entries. rewrite map_map, <- app_assoc. reflexivity.
Qed.

Lemma for_each_extreme_lines (above : list day) (shown : float -> string) (w : @world env) :
  (forall x, py_format (PFloat x) ".1f" = Ok (shown x)) ->
  for_each (entries above)
           (fun day : pyval * pyval =>
              let '(date, temp) := day in
              (temp_shown <- lift (py_format temp ".1f") ;;
               print ("Date: " ++ py_str date ++ ", Temperature: " ++ temp_shown
                        ++ " degrees"))%monad) w
  = (Ok tt, {| w_env := w_env w; w_stdin := w_stdin w;
               w_stdout := (w_stdout w ++ map (extreme_days_line shown) above)%list |}).
Proof.
  intros Hfmt. revert w. induction above as [|d above IH]; intros w.
  - simpl. unfold ret. rewrite app_nil_r. destruct w; reflexivity.
  - cbn [entries map for_each entry]. unfold bind at 1. unfold bind at 1.
    rewrite Hfmt. unfold lift at 1. unfold print at 1, write at 1.
    fold (entries above). rewrite IH. cbn [w_env w_stdin w_stdout].
    rewrite <- app_assoc. reflexivity.
Qed.

(** X21. For a loaded dataset of dated numbers, when the line read is a
    number and [format] shows floats to one decimal as [shown],
    [print_extreme_days] announces as many days as it then lists: the days
    above the threshold, in the order of the payload.  When the line is no
    number, the [ValueError] of [float] is caught, a message is printed and
    the function returns. *)
Theorem print_extreme_days_output
        (self : HistoricalTemps) (days : list day) (w : world)
        (line : string) (rest : list string) (shown : float -> string) :
  w_stdin w = line :: rest ->
  (forall x, py_format (PFloat x) ".1f" = Ok (shown x)) ->
  (forall threshold,
      py_float line = Ok threshold ->
      let above := filter (fun d => fgtb (snd d) threshold) days in
      print_extreme_days (loaded self days) w
      = (Ok tt,
         {| w_env := w_env w; w_stdin := rest;
            w_stdout :=
              (w_stdout w
               ++ "Enter a threshold temperature: "
                  :: extreme_days_header (List.length above) (shown threshold)
                  :: map (extreme_days_line shown) above)%list |}))
  /\ (forall e,
         py_float line = Raise e -> isinstance e ValueError = true ->
         print_extreme_days (loaded self days) w
         = (Ok tt,
            {| w_env := w_env w; w_stdin := rest;
               w_stdout :=
                 (w_stdout w
                  ++ ["Enter a threshold temperature: ";
                      String.append
                        "Please enter a valid number for the threshold temperature."
                        newline])%list |})).
Proof.
  intros Hin Hfmt. split.
  - intros threshold Hfloat above.
    unfold print_extreme_days. change (is_data_loaded (loaded self days)) with true.
    cbn [negb].
    match goal with
    | |- bind ?m _ _ = _ =>
        assert (Hread : m w = (Ok (Some threshold),
                               {| w_env := w_env w; w_stdin := rest;
                                  w_stdout := (w_stdout w
                                               ++ ["Enter a threshold temperature: "])%list |}))
    end.
    { unfold input, write. run. rewrite Hin. simpl. rewrite Hfloat. reflexivity. }
    unfold bind at 1. rewrite Hread.
    unfold bind at 1, lift at 1. rewrite extreme_days_entries. fold above.
    unfold bind at 1, lift at 1. rewrite Hfmt.
    unfold bind at 1, print at 1, write at 1.
    rewrite (for_each_extreme_lines above shown _ Hfmt).
    cbn [w_env w_stdin w_stdout].
    unfold entries at 1. rewrite length_map. rewrite <- !app_assoc. reflexivity.
  - intros e Hfloat Hcls.
    unfold print_extreme_days. change (is_data_loaded (loaded self days)) with true.
    cbn [negb]. unfold input, write, print. run. rewrite Hin. simpl. rewrite Hfloat. simpl.
    rewrite Hcls. simpl. rewrite <- app_assoc. reflexivity.
Qed.

(** X22. Comparing with an empty payload ends in [ZeroDivisionError]: a
    dataset whose payload is loaded but empty passes the check of
    [compare_average_temps], and the division of [average_temp] raises
    before anything is printed, for the first dataset as for the second. *)
Theorem compare_on_empty_payload
        (dataset_one dataset_two : HistoricalTemps) (w : world) :
  (_temp_list dataset_one = Some [] ->
   is_data_loaded dataset_two = true ->
   compare_average_temps dataset_one dataset_two w
   = (Raise (Exn ZeroDivisionError "division by zero" None), w))
  /\ (forall avg_temp_one,
         average_temp dataset_one = Ok avg_temp_one ->
         _temp_list dataset_two = Some [] ->
         compare_average_temps dataset_one dataset_two w
         = (Raise (Exn ZeroDivisionError "division by zero" None), w)).
Proof.
  split.
  - intros H1 H2. unfold compare_average_temps, is_data_loaded in *.
    unfold average_temp at 1. rewrite H1.
    destruct (_temp_list dataset_two); [|discriminate]. reflexivity.
  - intros avg_temp_one H1 H2. unfold compare_average_temps.
    assert (Hl : is_data_loaded dataset_one = true).
    { unfold is_data_loaded. unfold average_temp in H1.
      destruct (_temp_list dataset_one); [reflexivity|discriminate]. }
    rewrite Hl. unfold is_data_loaded. rewrite H2. cbn [negb orb].
    unfold bind at 1, lift at 1. rewrite H1.
    unfold average_temp. rewrite H2. reflexivity.
Qed.

(** ** Changing both dates *)

(** X23. When both reloads succeed, the date dialog reads two lines, asks
    the archive twice (first for the new start with the old end, then for
    the new start with the new end) and leaves the dataset with both new
    dates and the payload of the second answer; it ends with the line of
    success. *)
Theorem change_dates_success
        (dataset d1 d2 : HistoricalTemps) (w : world)
        (new_start new_end : string) (rest : list string) (e1 e2 : env) :
  is_data_loaded dataset = true ->
  w_stdin w = new_start :: new_end :: rest ->
  _load_temps (set_start dataset new_start, w_env w) = (Ok tt, (d1, e1)) ->
  _load_temps (set_end d1 new_end, e1) = (Ok tt, (d2, e2)) ->
  change_dates (dataset, w)
  = (Ok tt,
     (d2,
      {| w_env := e2; w_stdin := rest;
         w_stdout := (w_stdout w
                      ++ ["Enter the new start date (YYYY-MM-DD): ";
                          "Enter the new end date (YYYY-MM-DD): ";
                          String.append "Dates successfully changed." newline])%list |}))
  /\ _start d2 = new_start
  /\ _end d2 = new_end
  /\ _zip_code d2 = _zip_code dataset
  /\ is_data_loaded d2 = true.
Proof.
  intros Hloaded Hin Hload1 Hload2. destruct w as [e stdin out]. simpl in *. subst stdin.
  destruct (load_temps_ok _ _ _ Hload1) as [l1 Hd1]. simpl in Hd1.
  destruct (load_temps_ok _ _ _ Hload2) as [l2 Hd2]. simpl in Hd2.
  split; [|subst d2 d1; destruct dataset; simpl; auto].
  unfold change_dates, method, input, write, print. run. rewrite Hloaded. simpl.
  rewrite (start_setter_ok _ _ _ _ Hload1). simpl.
  rewrite (end_setter_ok _ _ _ _ Hload2). simpl.
  rewrite <- !app_assoc. reflexivity.
Qed.

(** ** The session *)

Lemma menu_loop_more_fuel (fuel : nat) (sl : slots) (w : world)
      (r : result unit * world) :
  menu_loop fuel sl w = Some r -> forall fuel', (fuel <= fuel')%nat ->
  menu_loop fuel' sl w = Some r.
Proof.
  revert sl w. induction fuel as [|fuel IH]; intros sl w H fuel' Hle; [discriminate|].
  destruct fuel' as [|fuel']; [lia|]. simpl in *.
  destruct (menu_body sl w) as [[[[|] sl1]|x] w1]; auto.
  apply (IH _ _ H). lia.
Qed.

(** X24. A session on a finite input ends, and how it ends does not depend
    on the bound of turns: with one turn for every line of the input,
    [main()] returns or raises, and every larger bound gives the same result
    and the same state. *)
Theorem session_always_ends (w : world) (fuel : nat) :
  (lines_left w <= fuel)%nat ->
  exists r, forall fuel', (fuel <= fuel')%nat -> main fuel' w = Some r.
Proof.
  intros Hle. unfold main, input, write, print, bind, lines_left in *. simpl.
  destruct (w_stdin w) as [|name rest] eqn:E; simpl; [eauto|].
  match goal with
  | |- exists r, forall fuel', _ -> menu fuel' ?w0 = _ =>
      destruct (menu_loop_terminates fuel
                  {| dataset_one := None; dataset_two := None |} w0) as [r Hr];
        [unfold lines_left; simpl in *; lia|]
  end.
  exists r. intros fuel' Hf. unfold menu. eapply menu_loop_more_fuel; eassumption.
Qed.

End MoreProofs.

(** ** The theorems at work in the concrete worlds *)

Lemma queries_on_missing_temperature_witness :
  extreme_days (set_temp_list Demo.seattle_temps
                  (Some [(Demo.D1, Demo.t60); (Demo.D2, PNone)])) (float_of_Z 55)
  = Raise (Exn TypeError
             "'>' not supported between instances of 'NoneType' and 'float'" None).
Proof.
  exact (proj1 (queries_on_missing_temperature Demo.seattle_temps
                  [("2023-08-23", float_of_Z 60)] Demo.D2 PNone [] (float_of_Z 55)
                  eq_refl)).
Defined.

Lemma convert_json_keeps_both_arrays_witness :
  exists temp_list,
    _convert_json_to_list "three days" = Ok temp_list
    /\ map fst temp_list = [Demo.D1; Demo.D2; Demo.D3]
    /\ map snd temp_list = [Demo.t60; Demo.t75; Demo.t50].
Proof.
  apply (convert_json_keeps_both_arrays (services := Demo.services) "three days"
           [("daily", PDict [("time", PList [Demo.D1; Demo.D2; Demo.D3]);
                             ("temperature_2m_max",
                              PList [Demo.t60; Demo.t75; Demo.t50])])]
           [("time", PList [Demo.D1; Demo.D2; Demo.D3]);
            ("temperature_2m_max", PList [Demo.t60; Demo.t75; Demo.t50])]
           [Demo.D1; Demo.D2; Demo.D3] [Demo.t60; Demo.t75; Demo.t50]);
    reflexivity.
Defined.

Lemma convert_json_missing_member_witness :
  _convert_json_to_list "error body" = Raise (Exn KeyError "'daily'" None).
Proof.
  exact (proj1 (convert_json_missing_member (services := Demo.services) "error body"
                  [("error", PBool true); ("reason", PStr "Invalid date")] eq_refl)
               eq_refl).
Defined.

Lemma load_temps_all_or_nothing_witness :
  _zip_code Demo.seattle_temps = "98101"
  /\ _start Demo.seattle_temps = "2023-08-23"
  /\ _end Demo.seattle_temps = "2023-08-25"
  /\ _lat Demo.seattle_temps = loc_latitude Demo.seattle
  /\ _lon Demo.seattle_temps = loc_longitude Demo.seattle
  /\ _loc_name Demo.seattle_temps = PStr "Seattle"
  /\ is_data_loaded Demo.seattle_temps = true.
Proof.
  exact (load_temps_all_or_nothing (services := Demo.services)
           (set_temp_list Demo.seattle_temps None) Demo.seattle_temps O 1%nat
           (Ok tt) eq_refl).
Defined.

Lemma setter_success_commits_witness :
  start_setter "2023-08-24" (Demo.seattle_temps, O)
  = (Ok tt, (set_temp_list (set_start Demo.seattle_temps "2023-08-24")
               (Some Demo.three_days), 1%nat)).
Proof.
  exact (proj1 (setter_success_commits (services := Demo.services) Demo.seattle_temps
                  "2023-08-24" O 1%nat "three days" Demo.three_days eq_refl)
               eq_refl).
Defined.

Lemma constructed_dataset_is_loaded_witness :
  is_data_loaded Demo.seattle_temps = true
  /\ _zip_code Demo.seattle_temps = "98101"
  /\ _start Demo.seattle_temps = "2023-08-23"
  /\ _end Demo.seattle_temps = "2023-08-25"
  /\ math_isnan (_lat Demo.seattle_temps) = Ok false
  /\ math_isnan (_lon Demo.seattle_temps) = Ok false.
Proof.
  exact (constructed_dataset_is_loaded (services := Demo.services)
           "98101" "2023-08-23" "2023-08-25" O 1%nat Demo.seattle_temps eq_refl).
Defined.

Lemma create_dataset_outcomes_witness :
  create_dataset (Demo.console ["98101"])
  = (Ok (Some seattle_default),
     {| w_env := 1%nat; w_stdin := []; w_stdout := ["Please enter a zip code: "] |}).
Proof.
  exact (proj1 (create_dataset_outcomes (services := Demo.services)
                  (Demo.console ["98101"]))
               "98101" [] seattle_default 1%nat eq_refl eq_refl).
Defined.


Lemma archive_error_reported_as_invalid_zip_witness :
  create_dataset (Outage.console true ["98101"])
  = (Ok None,
     {| w_env := true; w_stdin := [];
        w_stdout := ["Please enter a zip code: ";
                     "Error: The entered zip code is invalid. Please try again."
                       ++ newline] |}).
Proof.
  apply (archive_error_reported_as_invalid_zip (services := Outage.services)
           (Outage.console true ["98101"]) "98101" [] Demo.seattle
           (Demo.dec 476114 4) (Demo.dec (-1223305) 4) true true "error body"
           [("error", PBool true); ("reason", PStr "Invalid date")]);
    reflexivity.
Defined.

Lemma invalid_choice_changes_nothing_witness :
  exists out,
    menu_body {| dataset_one := Some Demo.seattle_temps; dataset_two := None |}
              (Demo.console ["nine"])
    = (Ok (Continue, {| dataset_one := Some Demo.seattle_temps; dataset_two := None |}),
       {| w_env := O; w_stdin := [];
          w_stdout := out ++ ["What is your choice?";
                              "Please enter a number only" ++ newline] |}).
Proof.
  destruct (invalid_choice_changes_nothing (services := Demo.services)
              {| dataset_one := Some Demo.seattle_temps; dataset_two := None |}
              (Demo.console ["nine"]) "nine" [] eq_refl) as (out & H & _).
  exists out.
  exact (H (Exn ValueError "invalid literal for int() with base 10: 'nine'" None)
           eq_refl eq_refl).
Defined.

Lemma empty_slot_is_refused_witness :
  exists out,
    menu_body {| dataset_one := None; dataset_two := None |} (Demo.console ["6"])
    = (Ok (Continue, {| dataset_one := None; dataset_two := None |}),
       {| w_env := O; w_stdin := [];
          w_stdout := out ++ ["What is your choice?";
                              "Dataset one must be loaded first." ++ newline] |}).
Proof.
  apply (empty_slot_is_refused (services := Demo.services)
           {| dataset_one := None; dataset_two := None |} (Demo.console ["6"])
           "6" [] 6 "Dataset one must be loaded first.").
  - reflexivity.
  - reflexivity.
  - right. left. split; [right; right; reflexivity|]. split; reflexivity.
Defined.

Lemma loop_breaks_only_on_nine_witness :
  exists line rest,
    w_stdin (Demo.console ["9"; "1"]) = line :: rest
    /\ py_int line = Ok 9
    /\ {| dataset_one := None; dataset_two := None |}
       = {| dataset_one := None; dataset_two := None |}
    /\ w_stdin (snd (menu_body {| dataset_one := None; dataset_two := None |}
                               (Demo.console ["9"; "1"]))) = rest
    /\ w_env (snd (menu_body {| dataset_one := None; dataset_two := None |}
                             (Demo.console ["9"; "1"]))) = O.
Proof.
  apply (loop_breaks_only_on_nine (services := Demo.services)
           {| dataset_one := None; dataset_two := None |}
           {| dataset_one := None; dataset_two := None |}
           (Demo.console ["9"; "1"])
           (snd (menu_body {| dataset_one := None; dataset_two := None |}
                           (Demo.console ["9"; "1"])))).
  reflexivity.
Defined.

Lemma normal_end_says_goodbye_witness :
  exists out,
    w_stdout (w_after (menu_loop 1 {| dataset_one := None; dataset_two := None |}
                                 (Demo.console ["9"])) (Demo.console []))
    = (out ++ ["What is your choice?";
               String.append "Goodbye! Thank you for using the database" newline])%list.
Proof.
  apply (normal_end_says_goodbye (services := Demo.services) 1
           {| dataset_one := None; dataset_two := None |} (Demo.console ["9"])).
  reflexivity.
Defined.

Lemma menu_keeps_slots_loaded_witness :
  slots_loaded {| dataset_one := Some seattle_default; dataset_two := None |}.
Proof.
  apply (menu_keeps_slots_loaded (services := Demo.services)
           {| dataset_one := None; dataset_two := None |}
           {| dataset_one := Some seattle_default; dataset_two := None |}
           (Demo.console ["1"; "98101"])
           (snd (menu_body {| dataset_one := None; dataset_two := None |}
                           (Demo.console ["1"; "98101"])))
           Continue).
  - reflexivity.
  - split; exact I.
Defined.

Lemma print_extreme_days_output_witness :
  print_extreme_days (loaded Demo.seattle_temps three_typed_days) (Demo.console ["55"])
  = (Ok tt,
     {| w_env := O; w_stdin := [];
        w_stdout := ["Enter a threshold temperature: ";
                     extreme_days_header 2 "?";
                     extreme_days_line (fun _ => "?") ("2023-08-23", float_of_Z 60);
                     extreme_days_line (fun _ => "?") ("2023-08-24", float_of_Z 75)] |}).
Proof.
  exact (proj1 (print_extreme_days_output (services := Demo.services)
                  Demo.seattle_temps three_typed_days (Demo.console ["55"]) "55" []
                  (fun _ => "?") eq_refl (fun _ => eq_refl))
               (float_of_Z 55) eq_refl).
Defined.

Lemma compare_on_empty_payload_witness :
  compare_average_temps (set_temp_list Demo.seattle_temps (Some [])) Demo.seattle_temps
                        (Demo.console [])
  = (Raise (Exn ZeroDivisionError "division by zero" None), Demo.console []).
Proof.
  exact (proj1 (compare_on_empty_payload (services := Demo.services)
                  (set_temp_list Demo.seattle_temps (Some [])) Demo.seattle_temps
                  (Demo.console []))
               eq_refl eq_refl).
Defined.

Lemma change_dates_success_witness :
  change_dates (Demo.seattle_temps, Demo.console ["2023-08-24"; "2023-08-26"])
  = (Ok tt,
     (set_end (set_start Demo.seattle_temps "2023-08-24") "2023-08-26",
      {| w_env := 2%nat; w_stdin := [];
         w_stdout := ["Enter the new start date (YYYY-MM-DD): ";
                      "Enter the new end date (YYYY-MM-DD): ";
                      "Dates successfully changed." ++ newline] |}))
  /\ _start (set_end (set_start Demo.seattle_temps "2023-08-24") "2023-08-26")
     = "2023-08-24"
  /\ _end (set_end (set_start Demo.seattle_temps "2023-08-24") "2023-08-26")
     = "2023-08-26"
  /\ _zip_code (set_end (set_start Demo.seattle_temps "2023-08-24") "2023-08-26")
     = "98101"
  /\ is_data_loaded (set_end (set_start Demo.seattle_temps "2023-08-24") "2023-08-26")
     = true.
Proof.
  exact (change_dates_success (services := Demo.services) Demo.seattle_temps
           (set_start Demo.seattle_temps "2023-08-24")
           (set_end (set_start Demo.seattle_temps "2023-08-24") "2023-08-26")
           (Demo.console ["2023-08-24"; "2023-08-26"]) "2023-08-24" "2023-08-26" []
           1%nat 2%nat eq_refl eq_refl eq_refl eq_refl).
Defined.

Lemma session_always_ends_witness :
  exists r, forall fuel', (2 <= fuel')%nat ->
                          main fuel' (Demo.console ["Ada"; "9"]) = Some r.
Proof.
  apply (session_always_ends (services := Demo.services) (Demo.console ["Ada"; "9"]) 2).
  unfold lines_left. simpl. lia.
Defined.
